(** * govc vm.customize: the flag-to-specification mapper

    A shallow embedding of [govc/vm/customize.go] (the [customize] command of
    govc) and the properties of its [Run] method.

    The command resolves a customization specification (a fresh one, or one
    fetched by name from the specification manager), checks the number of
    [-ip] values against the adapter slots, rewrites the specification in
    place according to the flags, and submits it as a task.

    Conventions of the embedding:
    - Go strings are [string]; slices are [list]; indexing a slice out of
      range and writing through a nil pointer are run-time panics, kept
      apart from the [error] values the command returns;
    - Go [int] is a [Z]; the conversion [int32(x)] is written out with its
      wrap-around;
    - the collaborators of the command (the virtual machine flag, the
      specification manager, the virtual machine's [Customize] and the
      task's [Wait]) are the fields of a [World] record; every call to one
      of them is recorded in a trace. *)

From Stdlib Require Import ZArith Ascii String List Lia.
From stdpp Require Import base list strings.

Local Open Scope string_scope.
Local Open Scope list_scope.

(** ** Data model: the customization types the command reads and writes *)

(** Modelled from the spec: the type declarations of package [vim25/types]
    are not among the sources.  Each record below has the fields that [Run]
    reads or writes, under the names [Run] uses, and the neighbouring fields
    of the vSphere type so that frame properties have something to preserve.
    An interface-typed field is an inductive type with one constructor per
    implementation and one for the nil interface. *)
Module PrefixName.
Record t := mk { Base : string }.
End PrefixName.

Module FixedName.
Record t := mk { Name : string }.
End FixedName.

Definition CustomizationPrefixName := PrefixName.t.
Definition CustomizationFixedName := FixedName.t.

(** [types.BaseCustomizationName]: the host name generator. *)
Inductive BaseCustomizationName : Type :=
| NilName
| VirtualMachineName
| PrefixNameGen (p : CustomizationPrefixName)
| FixedNameGen (f : CustomizationFixedName)
| CustomName (argument : string)
| UnknownName.

(** [types.BaseCustomizationIpGenerator]: the address generator of an adapter.
    [DhcpIpGenerator] carries no data; [FixedIp] carries the address. *)
Inductive BaseCustomizationIpGenerator : Type :=
| NilIpGenerator
| DhcpIpGenerator
| FixedIp (IpAddress : string)
| CustomIpGenerator (argument : string)
| UnknownIpGenerator.

Module IPSettings.
Record t := mk {
  Ip : BaseCustomizationIpGenerator;
  SubnetMask : string;
  Gateway : list string;
  DnsServerList : list string;
  DnsDomain : string
}.
Definition set_Ip (v : BaseCustomizationIpGenerator) (a : t) : t :=
  mk v (SubnetMask a) (Gateway a) (DnsServerList a) (DnsDomain a).
Definition set_SubnetMask (v : string) (a : t) : t :=
  mk (Ip a) v (Gateway a) (DnsServerList a) (DnsDomain a).
Definition set_Gateway (v : list string) (a : t) : t :=
  mk (Ip a) (SubnetMask a) v (DnsServerList a) (DnsDomain a).
Definition set_DnsServerList (v : list string) (a : t) : t :=
  mk (Ip a) (SubnetMask a) (Gateway a) v (DnsDomain a).
End IPSettings.

Module AdapterMapping.
Record t := mk {
  MacAddress : string;
  Adapter : IPSettings.t
}.
Definition set_MacAddress (v : string) (n : t) : t := mk v (Adapter n).
Definition set_Adapter (v : IPSettings.t) (n : t) : t := mk (MacAddress n) v.
(** The zero value, as [make([]types.CustomizationAdapterMapping, n)] fills
    the slice with. *)
Definition zero : t := mk "" (IPSettings.mk NilIpGenerator "" [] [] "").
End AdapterMapping.

Definition CustomizationAdapterMapping := AdapterMapping.t.

Module GlobalIPSettings.
Record t := mk {
  DnsSuffixList : list string;
  DnsServerList : list string
}.
Definition set_DnsServerList (v : list string) (g : t) : t :=
  mk (DnsSuffixList g) v.
Definition zero : t := mk [] [].
End GlobalIPSettings.

Module LinuxPrep.
Record t := mk {
  HostName : BaseCustomizationName;
  Domain : string;
  TimeZone : string;
  HwClockUTC : option bool;
  ScriptText : string
}.
Definition set_HostName (v : BaseCustomizationName) (l : t) : t :=
  mk v (Domain l) (TimeZone l) (HwClockUTC l) (ScriptText l).
Definition set_Domain (v : string) (l : t) : t :=
  mk (HostName l) v (TimeZone l) (HwClockUTC l) (ScriptText l).
Definition set_TimeZone (v : string) (l : t) : t :=
  mk (HostName l) (Domain l) v (HwClockUTC l) (ScriptText l).
End LinuxPrep.

Module GuiUnattended.
Record t := mk {
  TimeZone : Z;
  AutoLogon : bool;
  AutoLogonCount : Z
}.
Definition set_TimeZone (v : Z) (g : t) : t := mk v (AutoLogon g) (AutoLogonCount g).
Definition set_AutoLogon (v : bool) (g : t) : t := mk (TimeZone g) v (AutoLogonCount g).
Definition set_AutoLogonCount (v : Z) (g : t) : t := mk (TimeZone g) (AutoLogon g) v.
Definition zero : t := mk 0 false 0.
End GuiUnattended.

Module UserData.
Record t := mk {
  FullName : string;
  OrgName : string;
  ComputerName : BaseCustomizationName;
  ProductId : string
}.
Definition set_ComputerName (v : BaseCustomizationName) (u : t) : t :=
  mk (FullName u) (OrgName u) v (ProductId u).
End UserData.

Module Identification.
Record t := mk {
  JoinWorkgroup : string;
  JoinDomain : string;
  DomainAdmin : string
}.
Definition set_JoinDomain (v : string) (d : t) : t :=
  mk (JoinWorkgroup d) v (DomainAdmin d).
Definition zero : t := mk "" "" "".
End Identification.

Module Sysprep.
Record t := mk {
  GuiUnattended : GuiUnattended.t;
  UserData : UserData.t;
  Identification : Identification.t
}.
Definition set_GuiUnattended (v : GuiUnattended.t) (s : t) : t :=
  mk v (UserData s) (Identification s).
Definition set_UserData (v : UserData.t) (s : t) : t :=
  mk (GuiUnattended s) v (Identification s).
Definition set_Identification (v : Identification.t) (s : t) : t :=
  mk (GuiUnattended s) (UserData s) v.
End Sysprep.

Definition CustomizationLinuxPrep := LinuxPrep.t.
Definition CustomizationSysprep := Sysprep.t.

(** [types.BaseCustomizationIdentitySettings]: the identity of the guest.
    [Run] asserts the two variants it knows one by one (lines 156-157) and
    drops the second result of the Linux-prep assertion, so the interface
    value may be neither: nil, or another implementation, as the sysprep
    answer-file variant and the base type of the vSphere API, which a
    specification stored on the server can hold. *)
Inductive BaseCustomizationIdentitySettings : Type :=
| NilIdentity
| LinuxPrepIdentity (l : CustomizationLinuxPrep)
| SysprepIdentity (s : CustomizationSysprep)
| SysprepTextIdentity (value : string)
| IdentitySettings.

Module Spec.
Record t := mk {
  Identity : BaseCustomizationIdentitySettings;
  GlobalIPSettings : GlobalIPSettings.t;
  NicSettingMap : list CustomizationAdapterMapping;
  EncryptionKey : list Z
}.
Definition set_Identity (v : BaseCustomizationIdentitySettings) (s : t) : t :=
  mk v (GlobalIPSettings s) (NicSettingMap s) (EncryptionKey s).
Definition set_GlobalIPSettings (v : GlobalIPSettings.t) (s : t) : t :=
  mk (Identity s) v (NicSettingMap s) (EncryptionKey s).
Definition set_NicSettingMap (v : list CustomizationAdapterMapping) (s : t) : t :=
  mk (Identity s) (GlobalIPSettings s) v (EncryptionKey s).
End Spec.

Definition CustomizationSpec := Spec.t.

(** [types.CustomizationSpecItem], what the manager returns for a name. *)
Module SpecItem.
Record t := mk {
  Description : string;
  Spec : CustomizationSpec
}.
End SpecItem.

Definition CustomizationSpecItem := SpecItem.t.

(** ** The command's options: [type customize struct] *)

(** The embedded [*flags.VirtualMachineFlag] is part of the [World] below.
    [alc] is a Go [int], 64 bits wide on the 64-bit platforms: the model
    keeps it a [Z] and writes the conversion to [int32] out. *)
Module customize.
Record t := mk {
  alc : Z;
  prefix : CustomizationPrefixName;
  tz : string;
  domain : string;
  host : CustomizationFixedName;
  mac : list string;
  ip : list string;
  gateway : list string;
  netmask : list string;
  dnsserver : list string;
  kind : string
}.
(** The same options with another [-prefix] value. *)
Definition set_prefix (v : CustomizationPrefixName) (c : t) : t :=
  mk (alc c) v (tz c) (domain c) (host c) (mac c) (ip c) (gateway c) (netmask c)
    (dnsserver c) (kind c).
End customize.

(** The values the method [Register] gives the options before the command
    line is parsed: 0 for [-auto-login], the empty string for the string
    options, nil for the lists, and ["Linux"] for [-type]. *)
Definition registered : customize.t :=
  customize.mk 0 (PrefixName.mk "") "" "" (FixedName.mk "") [] [] [] [] [] "Linux".

(** [f.Arg(i)]: the i-th positional argument, the empty string when absent. *)
Definition Arg (args : list string) (i : nat) : string := nth i args "".

(** ** Library functions the command calls *)

(** [strings.Split(s, sep)] for a one-byte separator, the only way [Run]
    calls it (with [","]): the pieces of [s] between the occurrences of
    [sep]; a string without separator, also the empty one, gives one piece. *)
Fixpoint Split (s : string) (sep : ascii) : list string :=
  match s with
  | EmptyString => [EmptyString]
  | String c rest =>
      if Ascii.eqb c sep then EmptyString :: Split rest sep
      else match Split rest sep with
           | piece :: pieces => String c piece :: pieces
           | [] => [String c EmptyString]
           end
  end.

Definition comma : ascii := ","%char.

(** [strconv.ErrSyntax] and [strconv.ErrRange]. *)
Inductive strconvErr : Type := ErrSyntax | ErrRange.

(** [strconv.NumError]: the failing function, the input, the reason. *)
Record NumError := mkNumError { Func : string; Num : string; Err : strconvErr }.

(** [lower(c)] of strconv: [c | ('x' - 'X')]. *)
Definition lower (c : Z) : Z := Z.lor c 32.

(** The digit a byte stands for in [ParseUint], if any. *)
Definition digitOf (c : Z) : option Z :=
  if (48 <=? c)%Z && (c <=? 57)%Z then Some (c - 48)%Z
  else if (97 <=? lower c)%Z && (lower c <=? 122)%Z then Some (lower c - 97 + 10)%Z
  else None.

Definition maxUint64 : Z := (2 ^ 64 - 1)%Z.
Definition uint64 (z : Z) : Z := (z mod 2 ^ 64)%Z.

(** The digit loop of [strconv.ParseUint], on an accumulator [n : uint64]. *)
Fixpoint parseDigits (base maxVal cutoff : Z) (s : string) (n : Z) : Z + strconvErr :=
  match s with
  | EmptyString => inl n
  | String c rest =>
      match digitOf (Z.of_N (N_of_ascii c)) with
      | None => inr ErrSyntax
      | Some d =>
          if (d >=? base)%Z then inr ErrSyntax
          else if (n >=? cutoff)%Z then inr ErrRange
          else
            let n := uint64 (n * base) in
            let n1 := uint64 (n + d) in
            if (n1 <? n)%Z || (n1 >? maxVal)%Z then inr ErrRange
            else parseDigits base maxVal cutoff rest n1
      end
  end.

(** [strconv.ParseUint(s, base, bitSize)] for [2 <= base <= 36] and
    [1 <= bitSize <= 64] (no base prefix, no underscores): the value and
    the reason of a failure. *)
Definition ParseUint (s : string) (base bitSize : Z) : Z * option strconvErr :=
  if String.eqb s "" then (0%Z, Some ErrSyntax)
  else
    let cutoff := (maxUint64 / base + 1)%Z in
    let maxVal := (2 ^ bitSize - 1)%Z in
    match parseDigits base maxVal cutoff s 0%Z with
    | inl n => (n, None)
    | inr ErrSyntax => (0%Z, Some ErrSyntax)
    | inr ErrRange => (maxVal, Some ErrRange)
    end.

(** [strconv.ParseInt(s, base, bitSize)], same domain: an optional sign, then
    [ParseUint], then the range check of the signed type. *)
Definition ParseInt (s : string) (base bitSize : Z) : Z + NumError :=
  match s with
  | EmptyString => inr (mkNumError "ParseInt" s ErrSyntax)
  | String c rest =>
      let neg := Ascii.eqb c "-"%char in
      let s1 := if Ascii.eqb c "+"%char || neg then rest else s in
      match ParseUint s1 base bitSize with
      | (_, Some ErrSyntax) => inr (mkNumError "ParseInt" s ErrSyntax)
      | (un, _) =>
          let cutoff := (2 ^ (bitSize - 1))%Z in
          if negb neg && (un >=? cutoff)%Z then inr (mkNumError "ParseInt" s ErrRange)
          else if neg && (un >? cutoff)%Z then inr (mkNumError "ParseInt" s ErrRange)
          else inl (if neg then (- un)%Z else un)
      end
  end.

(** The conversion [int32(x)]: the low 32 bits, read as a signed number. *)
Definition int32 (z : Z) : Z := ((z + 2 ^ 31) mod 2 ^ 32 - 2 ^ 31)%Z.

(** ** Errors, panics and the trace of a run *)

(** An argument of a format string. *)
Inductive fmt_arg : Type :=
| ArgInt (n : nat)
| ArgString (s : string)
| ArgError (e : NumError).

(** The [error] values [Run] returns: [flag.ErrHelp], the value of
    [fmt.Errorf(format, args...)] kept as the format with its arguments, and
    an error handed back by a collaborator. *)
Inductive error : Type :=
| ErrHelp
| Errorf (format : string) (args : list fmt_arg)
| Remote (msg : string).

(** Run-time panics: a write through a nil pointer, an index out of range. *)
Inductive panic : Type :=
| NilPointerDereference
| IndexOutOfRange (i len : nat).

Inductive result (A : Type) : Type :=
| Ok (a : A)
| Failed (e : error)
| Panicked (p : panic).
Arguments Ok {A} a.
Arguments Failed {A} e.
Arguments Panicked {A} p.

(** A task handle, as [vm.Customize] returns. *)
Definition Task := string.

(** What a run does that can be seen from outside the function, in order:
    the calls to the specification manager, to [vm.Customize] and to
    [task.Wait], and one [SetNic i] for each execution of the body of the
    per-adapter loop, which writes [spec.NicSettingMap[i]]. *)
Inductive event : Type :=
| CallExists (name : string)
| CallGet (name : string)
| SetNic (i : nat)
| CallCustomize (spec : CustomizationSpec)
| CallWait (task : Task).

(** A computation: its outcome and the events it produced. *)
Definition M (A : Type) : Type := result A * list event.

Definition ret {A} (a : A) : M A := (Ok a, []).
Definition fail {A} (e : error) : M A := (Failed e, []).
Definition throw {A} (p : panic) : M A := (Panicked p, []).
Definition emit (ev : event) : M unit := (Ok tt, [ev]).

Definition bind {A B} (m : M A) (k : A -> M B) : M B :=
  match m with
  | (Ok a, t) => let (r, t') := k a in (r, t ++ t')
  | (Failed e, t) => (Failed e, t)
  | (Panicked p, t) => (Panicked p, t)
  end.

Notation "x <- m ;; k" := (bind m (fun x => k))
  (at level 100, m at next level, right associativity).
Notation "m ;;; k" := (bind m (fun _ => k))
  (at level 100, right associativity).

Definition outcome {A} (m : M A) : result A := fst m.
Definition trace {A} (m : M A) : list event := snd m.

(** ** The collaborators *)

(** What a collaborator hands back: a value, or an error. *)
Inductive reply (A : Type) : Type :=
| Value (a : A)
| Error (e : error).
Arguments Value {A} a.
Arguments Error {A} e.

(** The answers of the collaborators in one run.  Each is called at most
    once, so a function of the arguments is as general as it gets.
    [VirtualMachine] is [cmd.VirtualMachineFlag.VirtualMachine()], whose
    value is nil ([None]) when no [-vm] was given. *)
Module World.
Record t := mk {
  VirtualMachine : reply (option string);
  DoesCustomizationSpecExist : string -> reply bool;
  GetCustomizationSpec : string -> reply CustomizationSpecItem;
  Customize : CustomizationSpec -> reply Task;
  Wait : Task -> option error
}.
End World.

(** A call that returns [(value, err)]: log it, then [if err != nil { return err }]. *)
Definition call {A} (ev : event) (r : reply A) : M A :=
  emit ev;;;
  match r with
  | Value a => ret a
  | Error e => fail e
  end.

(** ** [Run], step by step *)

(** Lines 115-132: no NAME.  A fresh specification with [len(cmd.ip)] zeroed
    adapter mappings; its identity by [cmd.kind], [flag.ErrHelp] for a kind
    that is neither ["Linux"] nor ["Windows"]. *)
Definition newSpec (cmd : customize.t) : M CustomizationSpec :=
  let spec :=
    Spec.mk NilIdentity GlobalIPSettings.zero
      (replicate (length (customize.ip cmd)) AdapterMapping.zero) [] in
  if String.eqb (customize.kind cmd) "Linux" then
    ret (Spec.set_Identity
           (LinuxPrepIdentity (LinuxPrep.mk VirtualMachineName "" "" None "")) spec)
  else if String.eqb (customize.kind cmd) "Windows" then
    ret (Spec.set_Identity
           (SysprepIdentity
              (Sysprep.mk GuiUnattended.zero
                 (UserData.mk "" "" VirtualMachineName "") Identification.zero)) spec)
  else fail ErrHelp.

(** Lines 134-149: a NAME.  Ask the manager whether the specification
    exists, then fetch it; [spec = &item.Spec]. *)
Definition fetchSpec (w : World.t) (name : string) : M CustomizationSpec :=
  exists_ <- call (CallExists name) (World.DoesCustomizationSpecExist w name);;
  if negb exists_ then
    fail (Errorf "specification %q does not exist" [ArgString name])
  else
    item <- call (CallGet name) (World.GetCustomizationSpec w name);;
    ret (SpecItem.Spec item).

(** Lines 113-150: the resolved specification. *)
Definition resolveSpec (w : World.t) (cmd : customize.t) (name : string)
  : M CustomizationSpec :=
  if String.eqb name "" then newSpec cmd else fetchSpec w name.

(** Lines 152-154: no more [-ip] values than adapter slots. *)
Definition checkIPs (cmd : customize.t) (name : string) (spec : CustomizationSpec)
  : M unit :=
  if (length (Spec.NicSettingMap spec) <? length (customize.ip cmd))%nat then
    fail (Errorf "%d -ip specified, spec %q has %d"
            [ArgInt (length (customize.ip cmd)); ArgString name;
             ArgInt (length (Spec.NicSettingMap spec))])
  else ret tt.

(** Line 156: [isWindows], the second result of the type assertion of
    [spec.Identity] to a pointer to [types.CustomizationSysprep]. *)
Definition isSysprep (spec : CustomizationSpec) : bool :=
  match Spec.Identity spec with
  | SysprepIdentity _ => true
  | _ => false
  end.

(** Lines 156-157 bind [sysprep] and [linprep] to the object [spec.Identity]
    holds when it has that type, and to nil otherwise.  A write through
    [sysprep] changes that object in place; through nil it panics. *)
Definition viaSysprep (f : CustomizationSysprep -> CustomizationSysprep)
  (spec : CustomizationSpec) : M CustomizationSpec :=
  match Spec.Identity spec with
  | SysprepIdentity s => ret (Spec.set_Identity (SysprepIdentity (f s)) spec)
  | _ => throw NilPointerDereference
  end.

(** The same for a write through [linprep]. *)
Definition viaLinprep (f : CustomizationLinuxPrep -> CustomizationLinuxPrep)
  (spec : CustomizationSpec) : M CustomizationSpec :=
  match Spec.Identity spec with
  | LinuxPrepIdentity l => ret (Spec.set_Identity (LinuxPrepIdentity (f l)) spec)
  | _ => throw NilPointerDereference
  end.

(** Lines 159-165: [-domain]. *)
Definition setDomain (isWindows : bool) (cmd : customize.t) (spec : CustomizationSpec)
  : M CustomizationSpec :=
  if negb (String.eqb (customize.domain cmd) "") then
    if isWindows then
      viaSysprep (fun s =>
        Sysprep.set_Identification
          (Identification.set_JoinDomain (customize.domain cmd) (Sysprep.Identification s)) s)
        spec
    else viaLinprep (LinuxPrep.set_Domain (customize.domain cmd)) spec
  else ret spec.

(** Lines 169-172: the loop that appends the pieces of every [-dns-server]
    value to a list. *)
Definition appendDns (dns : list string) (servers : list string) : list string :=
  fold_left (fun acc s => acc ++ Split s comma) servers dns.

(** Lines 167-174: [-dns-server], the global list; not for Windows. *)
Definition setGlobalDns (isWindows : bool) (cmd : customize.t) (spec : CustomizationSpec)
  : M CustomizationSpec :=
  if negb (length (customize.dnsserver cmd) =? 0)%nat then
    if negb isWindows then
      ret (Spec.set_GlobalIPSettings
             (GlobalIPSettings.set_DnsServerList
                (appendDns (GlobalIPSettings.DnsServerList (Spec.GlobalIPSettings spec))
                   (customize.dnsserver cmd))
                (Spec.GlobalIPSettings spec))
             spec)
    else ret spec
  else ret spec.

(** A write to the host name field of the identity: [ComputerName] of the
    sysprep user data, [HostName] of the Linux prep. *)
Definition setName (isWindows : bool) (v : BaseCustomizationName) (spec : CustomizationSpec)
  : M CustomizationSpec :=
  if isWindows then
    viaSysprep (fun s =>
      Sysprep.set_UserData (UserData.set_ComputerName v (Sysprep.UserData s)) s) spec
  else viaLinprep (LinuxPrep.set_HostName v) spec.

(** Lines 176-182: [-prefix]. *)
Definition setPrefix (isWindows : bool) (cmd : customize.t) (spec : CustomizationSpec)
  : M CustomizationSpec :=
  if negb (String.eqb (PrefixName.Base (customize.prefix cmd)) "") then
    setName isWindows (PrefixNameGen (customize.prefix cmd)) spec
  else ret spec.

(** Lines 184-190: [-name]. *)
Definition setHost (isWindows : bool) (cmd : customize.t) (spec : CustomizationSpec)
  : M CustomizationSpec :=
  if negb (String.eqb (FixedName.Name (customize.host cmd)) "") then
    setName isWindows (FixedNameGen (customize.host cmd)) spec
  else ret spec.

(** Lines 192-198: [-auto-login]. *)
Definition setAutoLogin (isWindows : bool) (cmd : customize.t) (spec : CustomizationSpec)
  : M CustomizationSpec :=
  if negb (customize.alc cmd =? 0)%Z then
    if negb isWindows then fail (Errorf "option '-auto-login' is Windows only" [])
    else
      viaSysprep (fun s =>
        Sysprep.set_GuiUnattended
          (GuiUnattended.set_AutoLogonCount (int32 (customize.alc cmd))
             (GuiUnattended.set_AutoLogon true (Sysprep.GuiUnattended s))) s)
        spec
  else ret spec.

(** Lines 200-210: [-tz]. *)
Definition setTimeZone (isWindows : bool) (cmd : customize.t) (spec : CustomizationSpec)
  : M CustomizationSpec :=
  if negb (String.eqb (customize.tz cmd) "") then
    if isWindows then
      match ParseInt (customize.tz cmd) 16 32 with
      | inr err =>
          fail (Errorf "converting -tz=%q: %s"
                  [ArgString (customize.tz cmd); ArgError err])
      | inl tz =>
          viaSysprep (fun s =>
            Sysprep.set_GuiUnattended
              (GuiUnattended.set_TimeZone (int32 tz) (Sysprep.GuiUnattended s)) s)
            spec
      end
    else viaLinprep (LinuxPrep.set_TimeZone (customize.tz cmd)) spec
  else ret spec.

(** Lines 214-234: the body of the per-adapter loop, on [*nic]. *)
Definition setNic (isWindows : bool) (cmd : customize.t) (i : nat) (ip : string)
  (nic : CustomizationAdapterMapping) : CustomizationAdapterMapping :=
  let nic :=
    AdapterMapping.set_Adapter
      (IPSettings.set_Ip
         (if String.eqb ip "dhcp" then DhcpIpGenerator else FixedIp ip)
         (AdapterMapping.Adapter nic)) nic in
  let nic :=
    if (i <? length (customize.netmask cmd))%nat then
      AdapterMapping.set_Adapter
        (IPSettings.set_SubnetMask (nth i (customize.netmask cmd) "")
           (AdapterMapping.Adapter nic)) nic
    else nic in
  let nic :=
    if (i <? length (customize.mac cmd))%nat then
      AdapterMapping.set_MacAddress (nth i (customize.mac cmd) "") nic
    else nic in
  let nic :=
    if (i <? length (customize.gateway cmd))%nat then
      AdapterMapping.set_Adapter
        (IPSettings.set_Gateway (Split (nth i (customize.gateway cmd) "") comma)
           (AdapterMapping.Adapter nic)) nic
    else nic in
  if isWindows then
    if (i <? length (customize.dnsserver cmd))%nat then
      AdapterMapping.set_Adapter
        (IPSettings.set_DnsServerList (Split (nth i (customize.dnsserver cmd) "") comma)
           (AdapterMapping.Adapter nic)) nic
    else nic
  else nic.

(** Lines 212-235: [for i, ip := range cmd.ip], from index [i] on, over the
    remaining values [ips].  [nic := &spec.NicSettingMap[i]] panics when [i]
    is out of range. *)
Fixpoint nicLoop (isWindows : bool) (cmd : customize.t) (i : nat) (ips : list string)
  (nics : list CustomizationAdapterMapping) : M (list CustomizationAdapterMapping) :=
  match ips with
  | [] => ret nics
  | ip :: rest =>
      match nics !! i with
      | None => throw (IndexOutOfRange i (length nics))
      | Some nic =>
          emit (SetNic i);;;
          nicLoop isWindows cmd (S i) rest (<[i := setNic isWindows cmd i ip nic]> nics)
      end
  end.

Definition setNics (isWindows : bool) (cmd : customize.t) (spec : CustomizationSpec)
  : M CustomizationSpec :=
  nics <- nicLoop isWindows cmd 0 (customize.ip cmd) (Spec.NicSettingMap spec);;
  ret (Spec.set_NicSettingMap nics spec).

(** Lines 159-210: the settings of the identity and the global DNS list, in
    the order of the source; the first error or panic ends them. *)
Definition applySettings (isWindows : bool) (cmd : customize.t) (spec : CustomizationSpec)
  : M CustomizationSpec :=
  spec <- setDomain isWindows cmd spec;;
  spec <- setGlobalDns isWindows cmd spec;;
  spec <- setPrefix isWindows cmd spec;;
  spec <- setHost isWindows cmd spec;;
  spec <- setAutoLogin isWindows cmd spec;;
  setTimeZone isWindows cmd spec.

(** Lines 156-235: everything [Run] does to the specification. *)
Definition applyFlags (cmd : customize.t) (spec : CustomizationSpec) : M CustomizationSpec :=
  let isWindows := isSysprep spec in
  spec <- applySettings isWindows cmd spec;;
  setNics isWindows cmd spec.

(** Lines 237-242: submit the specification and wait for the task. *)
Definition submit (w : World.t) (spec : CustomizationSpec) : M unit :=
  task <- call (CallCustomize spec) (World.Customize w spec);;
  emit (CallWait task);;;
  match World.Wait w task with
  | None => ret tt
  | Some e => fail e
  end.

(** Lines 113-235: the specification [Run] is about to submit. *)
Definition prepare (w : World.t) (cmd : customize.t) (name : string)
  : M CustomizationSpec :=
  spec <- resolveSpec w cmd name;;
  checkIPs cmd name spec;;;
  applyFlags cmd spec.

(** [func (cmd *customize) Run(ctx, f) error]; [args] are the positional
    arguments of the flag set [f]. *)
Definition Run (w : World.t) (cmd : customize.t) (args : list string) : M unit :=
  match World.VirtualMachine w with
  | Error e => fail e
  | Value None => fail ErrHelp
  | Value (Some vm) =>
      spec <- prepare w cmd (Arg args 0);;
      submit w spec
  end.

(** Line 157: whether the type assertion of [spec.Identity] to a pointer to
    [types.CustomizationLinuxPrep] succeeds, that is, whether [linprep] is
    not nil. *)
Definition isLinuxPrep (spec : CustomizationSpec) : bool :=
  match Spec.Identity spec with
  | LinuxPrepIdentity _ => true
  | _ => false
  end.

(** ** Reading a trace *)

Definition isSetNic (ev : event) : bool :=
  match ev with SetNic _ => true | _ => false end.

Definition isSubmission (ev : event) : bool :=
  match ev with CallCustomize _ => true | _ => false end.

(** The number of adapter mutations in a trace. *)
Definition mutations (t : list event) : nat := length (List.filter isSetNic t).

(** The specifications submitted in a trace. *)
Definition submissions (t : list event) : list event := List.filter isSubmission t.

(** [needle] occurs in [s]. *)
Fixpoint contains (s needle : string) : bool :=
  String.prefix needle s ||
  match s with
  | EmptyString => false
  | String _ rest => contains rest needle
  end.

(** ** Sample invocations

    Concrete worlds and command lines, used to run the model. *)

(** A template with a Linux-prep identity and one adapter. *)
Definition linuxTemplate : CustomizationSpec :=
  Spec.mk (LinuxPrepIdentity (LinuxPrep.mk VirtualMachineName "corp.local" "UTC" None ""))
    (GlobalIPSettings.mk ["corp.local"] ["10.0.0.1"])
    [AdapterMapping.mk "00:50:56:be:dd:f8"
       (IPSettings.mk DhcpIpGenerator "255.255.0.0" ["10.0.0.254"] ["10.0.0.2"] "")]
    [].

(** A template with a sysprep identity and two adapters. *)
Definition windowsTemplate : CustomizationSpec :=
  Spec.mk
    (SysprepIdentity
       (Sysprep.mk (GuiUnattended.mk 4 false 0)
          (UserData.mk "admin" "corp" VirtualMachineName "")
          (Identification.mk "WORKGROUP" "" "")))
    (GlobalIPSettings.mk [] ["10.0.0.1"])
    [AdapterMapping.mk "" (IPSettings.mk DhcpIpGenerator "" [] ["10.0.0.2"] "");
     AdapterMapping.mk "" (IPSettings.mk DhcpIpGenerator "" [] ["10.0.0.3"] "")]
    [].

(** A template whose identity is a sysprep answer file, and no adapter. *)
Definition textTemplate : CustomizationSpec :=
  Spec.mk (SysprepTextIdentity "<unattend/>") GlobalIPSettings.zero [] [].

(** A manager that stores the three templates under the names ["linux"],
    ["windows"] and ["text"]. *)
Definition stored (name : string) : option CustomizationSpec :=
  if String.eqb name "linux" then Some linuxTemplate
  else if String.eqb name "windows" then Some windowsTemplate
  else if String.eqb name "text" then Some textTemplate
  else None.

(** A world with a virtual machine, that manager, and tasks that succeed. *)
Definition sampleWorld : World.t :=
  World.mk (Value (Some "vm-42"))
    (fun name => Value (match stored name with Some _ => true | None => false end))
    (fun name =>
       match stored name with
       | Some spec => Value (SpecItem.mk "" spec)
       | None => Error (Remote "NotFound")
       end)
    (fun _ => Value "task-1")
    (fun _ => None).

(** [-ip 10.0.0.5 -ip dhcp -netmask 255.255.255.0 -dns-server 8.8.8.8,8.8.4.4
    -name web -prefix demo -tz 23], with the given [-type] and [-auto-login]. *)
Definition sampleFlags (kind : string) (alc : Z) : customize.t :=
  customize.mk alc (PrefixName.mk "demo") "23" "" (FixedName.mk "web")
    [] ["10.0.0.5"; "dhcp"] [] ["255.255.255.0"] ["8.8.8.8,8.8.4.4"] kind.

(** [-domain example.org]. *)
Definition domainFlags : customize.t :=
  customize.mk 0 (PrefixName.mk "") "" "example.org" (FixedName.mk "") [] [] [] [] [] "Linux".

(** [-ip dhcp -ip dhcp]. *)
Definition twoIPs : customize.t :=
  customize.mk 0 (PrefixName.mk "") "" "" (FixedName.mk "") [] ["dhcp"; "dhcp"] [] [] [] "Linux".

(** [-ip dhcp -dns-server 8.8.8.8,8.8.4.4]. *)
Definition dnsFlags : customize.t :=
  customize.mk 0 (PrefixName.mk "") "" "" (FixedName.mk "") [] ["dhcp"] [] []
    ["8.8.8.8,8.8.4.4"] "Linux".

(** [-tz ZZZ -type Windows]. *)
Definition badTz : customize.t :=
  customize.mk 0 (PrefixName.mk "") "ZZZ" "" (FixedName.mk "") [] [] [] [] [] "Windows".

(** [-tz ZZZ -ip dhcp -ip dhcp -ip dhcp]. *)
Definition badTzThreeIPs : customize.t :=
  customize.mk 0 (PrefixName.mk "") "ZZZ" "" (FixedName.mk "") []
    ["dhcp"; "dhcp"; "dhcp"] [] [] [] "Linux".

(** [-tz UTC -auto-login 1]. *)
Definition tzAutoLogin : customize.t :=
  customize.mk 1 (PrefixName.mk "") "UTC" "" (FixedName.mk "") [] [] [] [] [] "Linux".

(** [-domain example.org -ip dhcp]. *)
Definition domainOneIP : customize.t :=
  customize.mk 0 (PrefixName.mk "") "" "example.org" (FixedName.mk "") [] ["dhcp"] [] [] []
    "Linux".

(** ** Variations of the options, to compare runs *)

(** The same options with another [-type] value. *)
Definition with_kind (v : string) (c : customize.t) : customize.t :=
  customize.mk (customize.alc c) (customize.prefix c) (customize.tz c)
    (customize.domain c) (customize.host c) (customize.mac c) (customize.ip c)
    (customize.gateway c) (customize.netmask c) (customize.dnsserver c) v.

(** The same options with the [-mac], [-gateway] and [-netmask] lists cut
    to the number of [-ip] values. *)
Definition withoutSurplus (c : customize.t) : customize.t :=
  customize.mk (customize.alc c) (customize.prefix c) (customize.tz c)
    (customize.domain c) (customize.host c)
    (take (length (customize.ip c)) (customize.mac c)) (customize.ip c)
    (take (length (customize.ip c)) (customize.gateway c))
    (take (length (customize.ip c)) (customize.netmask c))
    (customize.dnsserver c) (customize.kind c).

(** [-mac aa -mac bb -netmask 255.0.0.0 -gateway 10.0.0.1,10.0.0.2 -gateway g]
    with a single [-ip 10.0.0.5]. *)
Definition surplusFlags : customize.t :=
  customize.mk 0 (PrefixName.mk "") "" "" (FixedName.mk "") ["aa"; "bb"] ["10.0.0.5"]
    ["10.0.0.1,10.0.0.2"; "g"] ["255.0.0.0"] [] "Linux".

(** [-mac 00:50:56:be:60:cf -netmask 255.255.255.0 -gateway 10.0.0.1], and
    no [-ip]. *)
Definition noIPFlags : customize.t :=
  customize.mk 0 (PrefixName.mk "") "" "" (FixedName.mk "") ["00:50:56:be:60:cf"] []
    ["10.0.0.1"] ["255.255.255.0"] [] "Linux".

(** * Properties *)

(** ** The library functions on examples *)

Example Split_two : Split "8.8.8.8,8.8.4.4" comma = ["8.8.8.8"; "8.8.4.4"].
Proof. reflexivity. Qed.

Example Split_empty : Split "" comma = [""].
Proof. reflexivity. Qed.

Example Split_edges : Split ",a," comma = [""; "a"; ""].
Proof. reflexivity. Qed.

Example ParseInt_hex : ParseInt "23" 16 32 = inl 35%Z.
Proof. reflexivity. Qed.

Example ParseInt_signed : ParseInt "-80000000" 16 32 = inl (-2147483648)%Z.
Proof. reflexivity. Qed.

Example ParseInt_mixed_case : ParseInt "+aBc" 16 32 = inl 2748%Z.
Proof. reflexivity. Qed.

Example ParseInt_not_hex :
  ParseInt "ZZZ" 16 32 = inr (mkNumError "ParseInt" "ZZZ" ErrSyntax).
Proof. reflexivity. Qed.

Example ParseInt_no_prefix :
  ParseInt "0x23" 16 32 = inr (mkNumError "ParseInt" "0x23" ErrSyntax).
Proof. reflexivity. Qed.

Example ParseInt_too_large :
  ParseInt "80000000" 16 32 = inr (mkNumError "ParseInt" "80000000" ErrRange).
Proof. reflexivity. Qed.

Example int32_wraps : int32 4294967296 = 0%Z /\ int32 2147483648 = (-2147483648)%Z.
Proof. split; reflexivity. Qed.

(** ** The monad *)

Lemma bind_ret_l {A B} (a : A) (k : A -> M B) : bind (ret a) k = k a.
Proof. unfold bind, ret. by destruct (k a). Qed.

Lemma bind_Ok {A B} (a : A) (t : list event) (k : A -> M B) :
  bind (Ok a, t) k = (outcome (k a), t ++ trace (k a)).
Proof. unfold bind, outcome, trace. by destruct (k a). Qed.

Lemma bind_Ok_nil {A B} (a : A) (k : A -> M B) : bind (Ok a, []) k = k a.
Proof. apply bind_ret_l. Qed.

Lemma bind_Failed {A B} (e : error) (t : list event) (k : A -> M B) :
  bind (Failed e, t) k = (Failed e, t).
Proof. reflexivity. Qed.

Lemma bind_Panicked {A B} (p : panic) (t : list event) (k : A -> M B) :
  bind (Panicked p, t) k = (Panicked p, t).
Proof. reflexivity. Qed.

(** A sequence that succeeds is made of two parts that succeed. *)
Lemma bind_Ok_inv {A B} (m : M A) (k : A -> M B) (b : B) (t : list event) :
  bind m k = (Ok b, t) ->
  exists a t1 t2, m = (Ok a, t1) /\ k a = (Ok b, t2) /\ t = t1 ++ t2.
Proof.
  destruct m as [[a|e|p] t1]; simpl; try discriminate.
  destruct (k a) as [r t2] eqn:Hk. intros [= -> <-].
  exists a, t1, t2. by rewrite Hk.
Qed.

Lemma trace_bind {A B} (m : M A) (k : A -> M B) :
  trace (bind m k) =
  trace m ++ match outcome m with Ok a => trace (k a) | _ => [] end.
Proof.
  destruct m as [[a|e|p] t1]; simpl; rewrite ?app_nil_r; try reflexivity.
  by destruct (k a).
Qed.

Lemma mutations_app (t1 t2 : list event) :
  mutations (t1 ++ t2) = mutations t1 + mutations t2.
Proof. unfold mutations. by rewrite List.filter_app, length_app. Qed.

Lemma submissions_app (t1 t2 : list event) :
  submissions (t1 ++ t2) = submissions t1 ++ submissions t2.
Proof. apply List.filter_app. Qed.

Lemma submissions_nil_iff (t : list event) :
  submissions t = [] <-> forall spec, ~ In (CallCustomize spec) t.
Proof.
  unfold submissions. induction t as [|ev t IH]; simpl.
  - split; [intros _ spec [] | reflexivity].
  - destruct ev; simpl; rewrite ?IH; split; intros H;
      try (intros spec' [Heq|Hin]; [discriminate | by apply (H spec')]);
      try (intros spec' Hin; apply (H spec'); by right);
      try discriminate.
    exfalso. apply (H spec). by left.
Qed.

(** ** The per-adapter loop *)

Lemma nicLoop_cons isWindows cmd i ip rest nics nic :
  nics !! i = Some nic ->
  nicLoop isWindows cmd i (ip :: rest) nics =
  (outcome (nicLoop isWindows cmd (S i) rest (<[i := setNic isWindows cmd i ip nic]> nics)),
   SetNic i :: trace (nicLoop isWindows cmd (S i) rest (<[i := setNic isWindows cmd i ip nic]> nics))).
Proof. intros H. simpl. rewrite H. by destruct (nicLoop _ _ _ _ _). Qed.

(** With enough slots the loop runs to its end: it visits the indices
    [i .. i + len(ips) - 1] in order, rewrites exactly those slots with the
    loop body, and leaves every other slot and the length alone. *)
Lemma nicLoop_ok isWindows cmd ips : forall i nics,
  i + length ips <= length nics ->
  exists nics',
    nicLoop isWindows cmd i ips nics = (Ok nics', SetNic <$> seq i (length ips)) /\
    length nics' = length nics /\
    (forall j, j < i \/ i + length ips <= j -> nics' !! j = nics !! j) /\
    (forall k ip, ips !! k = Some ip ->
       nics' !! (i + k) = setNic isWindows cmd (i + k) ip <$> nics !! (i + k)).
Proof.
  induction ips as [|ip rest IH]; intros i nics Hlen.
  - exists nics. split; [done|]. split; [done|]. split; [done|].
    intros k ip Hk. by rewrite lookup_nil in Hk.
  - simpl in Hlen.
    destruct (lookup_lt_is_Some_2 nics i ltac:(lia)) as [nic Hnic].
    destruct (IH (S i) (<[i := setNic isWindows cmd i ip nic]> nics)) as
      (nics' & Hrun & Hlen' & Hframe & Hset).
    { rewrite length_insert. lia. }
    exists nics'. rewrite (nicLoop_cons _ _ _ _ _ _ _ Hnic), Hrun. simpl.
    rewrite length_insert in Hlen'. split; [done|]. split; [done|]. split.
    + intros j Hj. rewrite Hframe by lia. apply list_lookup_insert_ne. lia.
    + intros [|k] ip' Hk; simpl in Hk.
      * injection Hk as <-. rewrite Nat.add_0_r, Hframe by lia.
        rewrite list_lookup_insert_eq by lia. by rewrite Hnic.
      * replace (i + S k) with (S i + k) by lia. rewrite (Hset k ip' Hk).
        rewrite list_lookup_insert_ne by lia. done.
Qed.


Lemma nicLoop_no_submission isWindows cmd ips : forall i nics,
  submissions (trace (nicLoop isWindows cmd i ips nics)) = [].
Proof.
  induction ips as [|ip rest IH]; intros i nics; [reflexivity|].
  destruct (nics !! i) as [nic|] eqn:Hnic.
  - rewrite (nicLoop_cons _ _ _ _ _ _ _ Hnic). unfold trace at 1. simpl snd.
    unfold submissions. simpl. apply IH.
  - simpl. by rewrite Hnic.
Qed.

Lemma bind_assoc {A B C} (m : M A) (k : A -> M B) (h : B -> M C) :
  bind (bind m k) h = bind m (fun a => bind (k a) h).
Proof.
  destruct m as [[a|e|p] t]; simpl; try reflexivity.
  destruct (k a) as [[b|e|p] t1]; simpl; try reflexivity.
  destruct (h b) as [r t2]. by rewrite app_assoc.
Qed.

Lemma outcome_bind {A B} (m : M A) (k : A -> M B) :
  outcome (bind m k) =
  match outcome m with
  | Ok a => outcome (k a)
  | Failed e => Failed e
  | Panicked p => Panicked p
  end.
Proof.
  destruct m as [[a|e|p] t]; simpl; try reflexivity. by destruct (k a).
Qed.

Lemma M_eta {A} (m : M A) : m = (outcome m, trace m).
Proof. by destruct m. Qed.

(** ** The settings, in closed form for each kind of identity *)

(** A Linux-prep identity: [-auto-login] is refused; otherwise the fields of
    the identity and the global DNS list are set from the flags, and nothing
    else changes. *)
Lemma applySettings_linux cmd l g nics key :
  applySettings false cmd (Spec.mk (LinuxPrepIdentity l) g nics key) =
  if negb (customize.alc cmd =? 0)%Z then
    (Failed (Errorf "option '-auto-login' is Windows only" []), [])
  else
    (Ok (Spec.mk
           (LinuxPrepIdentity
              (LinuxPrep.mk
                 (if negb (String.eqb (FixedName.Name (customize.host cmd)) "")
                  then FixedNameGen (customize.host cmd)
                  else if negb (String.eqb (PrefixName.Base (customize.prefix cmd)) "")
                       then PrefixNameGen (customize.prefix cmd)
                       else LinuxPrep.HostName l)
                 (if negb (String.eqb (customize.domain cmd) "")
                  then customize.domain cmd else LinuxPrep.Domain l)
                 (if negb (String.eqb (customize.tz cmd) "")
                  then customize.tz cmd else LinuxPrep.TimeZone l)
                 (LinuxPrep.HwClockUTC l) (LinuxPrep.ScriptText l)))
           (GlobalIPSettings.mk (GlobalIPSettings.DnsSuffixList g)
              (appendDns (GlobalIPSettings.DnsServerList g) (customize.dnsserver cmd)))
           nics key), []).
Proof.
  unfold applySettings, setDomain, setGlobalDns, setPrefix, setHost, setName,
    setAutoLogin, setTimeZone, viaLinprep.
  destruct l as [hn dom tz hw st], g as [sfx dns].
  destruct (customize.dnsserver cmd) as [|d ds]; simpl;
    destruct (String.eqb (customize.domain cmd) ""); simpl;
    destruct (String.eqb (PrefixName.Base (customize.prefix cmd)) ""); simpl;
    destruct (String.eqb (FixedName.Name (customize.host cmd)) ""); simpl;
    destruct (customize.alc cmd =? 0)%Z; simpl; try reflexivity;
    destruct (String.eqb (customize.tz cmd) ""); reflexivity.
Qed.

(** A sysprep identity: the only failure is a [-tz] value that does not
    parse; otherwise the fields of the identity are set from the flags, and
    nothing else changes, the global DNS list included. *)
Lemma applySettings_windows cmd y g nics key :
  applySettings true cmd (Spec.mk (SysprepIdentity y) g nics key) =
  let gui := Sysprep.GuiUnattended y in
  let gui1 :=
    if negb (customize.alc cmd =? 0)%Z
    then GuiUnattended.mk (GuiUnattended.TimeZone gui) true (int32 (customize.alc cmd))
    else gui in
  let done (gui2 : GuiUnattended.t) : M CustomizationSpec :=
    (Ok (Spec.mk
           (SysprepIdentity
              (Sysprep.mk gui2
                 (UserData.mk (UserData.FullName (Sysprep.UserData y))
                    (UserData.OrgName (Sysprep.UserData y))
                    (if negb (String.eqb (FixedName.Name (customize.host cmd)) "")
                     then FixedNameGen (customize.host cmd)
                     else if negb (String.eqb (PrefixName.Base (customize.prefix cmd)) "")
                          then PrefixNameGen (customize.prefix cmd)
                          else UserData.ComputerName (Sysprep.UserData y))
                    (UserData.ProductId (Sysprep.UserData y)))
                 (Identification.mk
                    (Identification.JoinWorkgroup (Sysprep.Identification y))
                    (if negb (String.eqb (customize.domain cmd) "")
                     then customize.domain cmd
                     else Identification.JoinDomain (Sysprep.Identification y))
                    (Identification.DomainAdmin (Sysprep.Identification y)))))
           g nics key), []) in
  if negb (String.eqb (customize.tz cmd) "") then
    match ParseInt (customize.tz cmd) 16 32 with
    | inr err =>
        (Failed (Errorf "converting -tz=%q: %s"
                   [ArgString (customize.tz cmd); ArgError err]), [])
    | inl tz =>
        done (GuiUnattended.mk (int32 tz) (GuiUnattended.AutoLogon gui1)
                (GuiUnattended.AutoLogonCount gui1))
    end
  else done gui1.
Proof.
  unfold applySettings, setDomain, setGlobalDns, setPrefix, setHost, setName,
    setAutoLogin, setTimeZone, viaSysprep.
  destruct y as [[tz0 al0 alc0] [fn on cn pid] [jw jd da]], g as [sfx dns].
  destruct (customize.dnsserver cmd) as [|d ds]; simpl;
    destruct (String.eqb (customize.domain cmd) ""); simpl;
    destruct (String.eqb (PrefixName.Base (customize.prefix cmd)) ""); simpl;
    destruct (String.eqb (FixedName.Name (customize.host cmd)) ""); simpl;
    destruct (customize.alc cmd =? 0)%Z; simpl;
    destruct (String.eqb (customize.tz cmd) ""); simpl; try reflexivity;
    destruct (ParseInt (customize.tz cmd) 16 32); reflexivity.
Qed.

(** Any other identity (both [sysprep] and [linprep] are nil): every flag
    that writes through [linprep] panics, [-auto-login] is refused, and
    only the global DNS list can be set. *)
Lemma applySettings_other cmd spec :
  isSysprep spec = false -> isLinuxPrep spec = false ->
  applySettings false cmd spec =
  if negb (String.eqb (customize.domain cmd) "")
     || negb (String.eqb (PrefixName.Base (customize.prefix cmd)) "")
     || negb (String.eqb (FixedName.Name (customize.host cmd)) "")
  then (Panicked NilPointerDereference, [])
  else if negb (customize.alc cmd =? 0)%Z then
    (Failed (Errorf "option '-auto-login' is Windows only" []), [])
  else if negb (String.eqb (customize.tz cmd) "") then
    (Panicked NilPointerDereference, [])
  else
    (Ok (Spec.set_GlobalIPSettings
           (GlobalIPSettings.set_DnsServerList
              (appendDns (GlobalIPSettings.DnsServerList (Spec.GlobalIPSettings spec))
                 (customize.dnsserver cmd))
              (Spec.GlobalIPSettings spec)) spec), []).
Proof.
  unfold isSysprep, isLinuxPrep, applySettings, setDomain, setGlobalDns, setPrefix,
    setHost, setName, setAutoLogin, setTimeZone, viaLinprep.
  destruct spec as [id [sfx dns] nics key].
  destruct id; simpl; try discriminate; intros _ _;
    destruct (customize.dnsserver cmd) as [|d ds]; simpl;
    destruct (String.eqb (customize.domain cmd) ""); simpl; try reflexivity;
    destruct (String.eqb (PrefixName.Base (customize.prefix cmd)) ""); simpl; try reflexivity;
    destruct (String.eqb (FixedName.Name (customize.host cmd)) ""); simpl; try reflexivity;
    destruct (customize.alc cmd =? 0)%Z; simpl; try reflexivity;
    destruct (String.eqb (customize.tz cmd) ""); reflexivity.
Qed.

(** The three kinds of identity. *)
Lemma identity_cases (spec : CustomizationSpec) :
  (exists l, Spec.Identity spec = LinuxPrepIdentity l /\ isSysprep spec = false) \/
  (exists y, Spec.Identity spec = SysprepIdentity y /\ isSysprep spec = true) \/
  (isSysprep spec = false /\ isLinuxPrep spec = false).
Proof.
  unfold isSysprep, isLinuxPrep. destruct (Spec.Identity spec); eauto.
Qed.

(** The settings produce no event, and when they succeed they leave the
    adapter mappings, the encryption key, the DNS suffixes and the kind of
    the identity as they were. *)
Lemma applySettings_frame cmd spec :
  trace (applySettings (isSysprep spec) cmd spec) = [] /\
  forall spec', outcome (applySettings (isSysprep spec) cmd spec) = Ok spec' ->
    Spec.NicSettingMap spec' = Spec.NicSettingMap spec /\
    Spec.EncryptionKey spec' = Spec.EncryptionKey spec /\
    GlobalIPSettings.DnsSuffixList (Spec.GlobalIPSettings spec') =
      GlobalIPSettings.DnsSuffixList (Spec.GlobalIPSettings spec) /\
    isSysprep spec' = isSysprep spec /\
    isLinuxPrep spec' = isLinuxPrep spec.
Proof.
  destruct (identity_cases spec) as [(l & Hid & HW) | [(y & Hid & HW) | [HW HL]]];
    rewrite HW.
  - destruct spec as [id g nics key]; simpl in Hid; subst id.
    rewrite applySettings_linux.
    destruct (negb _); (split; [reflexivity|]); simpl; intros spec' [=]; by subst.
  - destruct spec as [id g nics key]; simpl in Hid; subst id.
    rewrite applySettings_windows. cbv zeta.
    destruct (negb (String.eqb _ _)); [destruct (ParseInt _ _ _)|];
      (split; [reflexivity|]); simpl; intros spec' [=]; by subst.
  - rewrite (applySettings_other _ _ HW HL).
    repeat (destruct (_ || _) || destruct (negb _));
      (split; [reflexivity|]); simpl; intros spec' [=]; subst; simpl.
    unfold isSysprep, isLinuxPrep in *. by destruct spec.
Qed.

(** ** The phases of [Run] *)

(** Resolving the specification only talks to the manager. *)
Lemma resolveSpec_quiet w cmd name :
  mutations (trace (resolveSpec w cmd name)) = 0 /\
  submissions (trace (resolveSpec w cmd name)) = [].
Proof.
  unfold resolveSpec, newSpec, fetchSpec, call.
  destruct (String.eqb name "").
  - destruct (String.eqb _ "Linux"); [done|]. by destruct (String.eqb _ "Windows").
  - destruct (World.DoesCustomizationSpecExist w name) as [[|]|e]; simpl; try done.
    by destruct (World.GetCustomizationSpec w name).
Qed.

Lemma checkIPs_pass cmd name spec :
  length (customize.ip cmd) <= length (Spec.NicSettingMap spec) ->
  checkIPs cmd name spec = ret tt.
Proof.
  intros H. unfold checkIPs.
  by destruct (Nat.ltb_spec (length (Spec.NicSettingMap spec)) (length (customize.ip cmd)));
    [lia|].
Qed.

Lemma checkIPs_refuse cmd name spec :
  length (Spec.NicSettingMap spec) < length (customize.ip cmd) ->
  checkIPs cmd name spec =
  fail (Errorf "%d -ip specified, spec %q has %d"
          [ArgInt (length (customize.ip cmd)); ArgString name;
           ArgInt (length (Spec.NicSettingMap spec))]).
Proof.
  intros H. unfold checkIPs.
  by destruct (Nat.ltb_spec (length (Spec.NicSettingMap spec)) (length (customize.ip cmd)));
    [|lia].
Qed.

(** Once the specification is resolved, the rest of the preparation is the
    count check followed by the flags. *)
Lemma prepare_resolved w cmd name spec0 t0 :
  resolveSpec w cmd name = (Ok spec0, t0) ->
  prepare w cmd name =
  if (length (Spec.NicSettingMap spec0) <? length (customize.ip cmd))%nat then
    (Failed (Errorf "%d -ip specified, spec %q has %d"
               [ArgInt (length (customize.ip cmd)); ArgString name;
                ArgInt (length (Spec.NicSettingMap spec0))]), t0)
  else (outcome (applyFlags cmd spec0), t0 ++ trace (applyFlags cmd spec0)).
Proof.
  intros H. unfold prepare. rewrite H, bind_Ok. unfold checkIPs.
  destruct (_ <? _)%nat; simpl; [by rewrite app_nil_r|].
  by destruct (applyFlags cmd spec0).
Qed.

Lemma prepare_unresolved w cmd name :
  (forall spec0, outcome (resolveSpec w cmd name) <> Ok spec0) ->
  prepare w cmd name =
  (match outcome (resolveSpec w cmd name) with
   | Ok _ => Panicked NilPointerDereference
   | Failed e => Failed e
   | Panicked p => Panicked p
   end, trace (resolveSpec w cmd name)).
Proof.
  intros H. unfold prepare.
  destruct (resolveSpec w cmd name) as [[spec0|e|p] t0]; simpl in *; try reflexivity.
  by destruct (H spec0).
Qed.

(** When the settings succeed and there are enough slots, the flags succeed:
    the loop rewrites the first [len(cmd.ip)] adapter mappings and nothing
    else. *)
Lemma applyFlags_Ok cmd spec spec1 :
  length (customize.ip cmd) <= length (Spec.NicSettingMap spec) ->
  outcome (applySettings (isSysprep spec) cmd spec) = Ok spec1 ->
  exists nics',
    applyFlags cmd spec =
      (Ok (Spec.set_NicSettingMap nics' spec1),
       SetNic <$> seq 0 (length (customize.ip cmd))) /\
    length nics' = length (Spec.NicSettingMap spec) /\
    (forall j, length (customize.ip cmd) <= j ->
       nics' !! j = Spec.NicSettingMap spec !! j) /\
    (forall k ip, customize.ip cmd !! k = Some ip ->
       nics' !! k = setNic (isSysprep spec) cmd k ip <$> Spec.NicSettingMap spec !! k).
Proof.
  intros Hlen Hset.
  destruct (applySettings_frame cmd spec) as [Htr Hfr].
  destruct (Hfr _ Hset) as (Hnics & _).
  destruct (nicLoop_ok (isSysprep spec) cmd (customize.ip cmd) 0 (Spec.NicSettingMap spec))
    as (nics' & Hrun & Hlen' & Hframe & Hwrite); [simpl; lia|].
  exists nics'. split; [|split; [done|split]].
  - unfold applyFlags. rewrite (M_eta (applySettings _ _ _)), Hset, Htr, bind_Ok_nil.
    unfold setNics. rewrite Hnics, Hrun, bind_Ok. simpl. by rewrite app_nil_r.
  - intros j Hj. apply Hframe. right. simpl. lia.
  - intros k ip Hk. apply (Hwrite k ip Hk).
Qed.

(** When the settings fail, so do the flags, before the loop. *)
Lemma applyFlags_abort cmd spec :
  (forall spec1, outcome (applySettings (isSysprep spec) cmd spec) <> Ok spec1) ->
  trace (applyFlags cmd spec) = [] /\
  forall spec', outcome (applyFlags cmd spec) <> Ok spec'.
Proof.
  intros H. destruct (applySettings_frame cmd spec) as [Htr _].
  unfold applyFlags. rewrite (M_eta (applySettings _ _ _)), Htr.
  destruct (outcome (applySettings (isSysprep spec) cmd spec)) as [spec1|e|p];
    [by destruct (H spec1)| |]; simpl; split; congruence.
Qed.

Lemma submit_trace w spec :
  trace (submit w spec) =
  CallCustomize spec ::
  match World.Customize w spec with
  | Value task => [CallWait task]
  | Error _ => []
  end.
Proof.
  unfold submit, call. destruct (World.Customize w spec) as [task|e]; simpl; [|done].
  by destruct (World.Wait w task).
Qed.

Lemma Run_with_vm w cmd args vm :
  World.VirtualMachine w = Value (Some vm) ->
  Run w cmd args = (spec <- prepare w cmd (Arg args 0);; submit w spec).
Proof. intros H. unfold Run. by rewrite H. Qed.

Lemma submissions_SetNic (l : list nat) : submissions (SetNic <$> l) = [].
Proof. by induction l. Qed.

Lemma mutations_SetNic (l : list nat) : mutations (SetNic <$> l) = length l.
Proof. unfold mutations. induction l; simpl; [done|]. by f_equal. Qed.

Lemma applyFlags_quiet cmd spec : submissions (trace (applyFlags cmd spec)) = [].
Proof.
  destruct (applySettings_frame cmd spec) as [Htr _].
  unfold applyFlags. rewrite trace_bind, Htr. simpl.
  destruct (outcome _) as [spec1|e|p]; try reflexivity.
  unfold setNics. rewrite trace_bind, submissions_app, nicLoop_no_submission.
  by destruct (outcome _).
Qed.

(** Nothing is submitted before the specification is ready. *)
Lemma prepare_quiet w cmd name : submissions (trace (prepare w cmd name)) = [].
Proof.
  unfold prepare. rewrite trace_bind, submissions_app.
  rewrite (proj2 (resolveSpec_quiet w cmd name)). simpl.
  destruct (outcome _) as [spec0|e|p]; try reflexivity.
  rewrite trace_bind, submissions_app. unfold checkIPs.
  destruct (_ <? _)%nat; simpl; [done|]. apply applyFlags_quiet.
Qed.

(** What it takes for the preparation to succeed. *)
Lemma prepare_Ok_inv w cmd name spec' :
  outcome (prepare w cmd name) = Ok spec' ->
  exists spec0 spec1 nics',
    outcome (resolveSpec w cmd name) = Ok spec0 /\
    length (customize.ip cmd) <= length (Spec.NicSettingMap spec0) /\
    outcome (applySettings (isSysprep spec0) cmd spec0) = Ok spec1 /\
    spec' = Spec.set_NicSettingMap nics' spec1 /\
    mutations (trace (prepare w cmd name)) = length (customize.ip cmd) /\
    length nics' = length (Spec.NicSettingMap spec0) /\
    (forall j, length (customize.ip cmd) <= j ->
       nics' !! j = Spec.NicSettingMap spec0 !! j) /\
    (forall k ip, customize.ip cmd !! k = Some ip ->
       nics' !! k = setNic (isSysprep spec0) cmd k ip <$> Spec.NicSettingMap spec0 !! k).
Proof.
  destruct (resolveSpec w cmd name) as [[spec0|e|p] t0] eqn:Hres;
    [|unfold prepare; rewrite Hres; discriminate..].
  rewrite (prepare_resolved _ _ _ _ _ Hres).
  destruct (Nat.ltb_spec (length (Spec.NicSettingMap spec0)) (length (customize.ip cmd)))
    as [Hlt|Hle]; [discriminate|]. simpl. intros Hok.
  destruct (outcome (applySettings (isSysprep spec0) cmd spec0)) as [spec1|e|p] eqn:Hset.
  - destruct (applyFlags_Ok cmd spec0 spec1 Hle Hset) as (nics' & Hrun & Hnics).
    rewrite Hrun in Hok. injection Hok as <-.
    exists spec0, spec1, nics'. repeat (split; [done|]).
    split; [|done]. rewrite Hrun. simpl. rewrite mutations_app, mutations_SetNic, length_seq.
    pose proof (proj1 (resolveSpec_quiet w cmd name)) as Hq. rewrite Hres in Hq.
    simpl in Hq. lia.
  - destruct (applyFlags_abort cmd spec0) as [_ Hno]; [rewrite Hset; congruence|].
    by destruct (Hno spec').
  - destruct (applyFlags_abort cmd spec0) as [_ Hno]; [rewrite Hset; congruence|].
    by destruct (Hno spec').
Qed.

(** A run submits exactly the specification its preparation produced. *)
Lemma Run_submission_iff w cmd args spec' :
  In (CallCustomize spec') (trace (Run w cmd args)) <->
  (exists vm, World.VirtualMachine w = Value (Some vm)) /\
  outcome (prepare w cmd (Arg args 0)) = Ok spec'.
Proof.
  unfold Run. destruct (World.VirtualMachine w) as [[vm|]|e];
    try (split; [intros [] | intros [[vm [=]] _]]).
  rewrite trace_bind. split.
  - intros Hin. split; [eauto|]. apply in_app_or in Hin as [Hin|Hin].
    + by apply (proj1 (submissions_nil_iff _) (prepare_quiet w cmd (Arg args 0))) in Hin.
    + destruct (outcome _) as [spec|e|p]; try by destruct Hin.
      rewrite submit_trace in Hin. destruct Hin as [[= ->]|Hin]; [done|].
      destruct (World.Customize w spec); simpl in Hin; by intuition.
  - intros [_ ->]. apply in_or_app. right. rewrite submit_trace. by left.
Qed.



Lemma Run_panicked w cmd args vm p t :
  World.VirtualMachine w = Value (Some vm) ->
  prepare w cmd (Arg args 0) = (Panicked p, t) ->
  Run w cmd args = (Panicked p, t).
Proof. intros Hvm H. by rewrite (Run_with_vm _ _ _ _ Hvm), H. Qed.

(** * The claims *)

(** ** C1: the number of [-ip] values against the adapter slots *)



(** ** C2: the fresh specification *)

(** C2.  With no NAME argument the resolved specification is a fresh one: it
    has exactly [len(ip)] adapter slots (all zero), and its identity is the
    Linux-prep variant for [-type Linux], which is the default, and the
    sysprep variant for [-type Windows]; the run goes on with that
    specification.  Any other [-type] ends the run with [flag.ErrHelp] and
    an empty trace: no specification comes out of the resolution and nothing
    is submitted. *)
Theorem C2_fresh_spec w cmd args vm :
  World.VirtualMachine w = Value (Some vm) ->
  Arg args 0 = "" ->
  (customize.kind cmd = "Linux" ->
     exists spec,
       resolveSpec w cmd (Arg args 0) = (Ok spec, []) /\
       Spec.NicSettingMap spec = replicate (length (customize.ip cmd)) AdapterMapping.zero /\
       length (Spec.NicSettingMap spec) = length (customize.ip cmd) /\
       Spec.Identity spec =
         LinuxPrepIdentity (LinuxPrep.mk VirtualMachineName "" "" None "") /\
       Run w cmd args = (spec' <- applyFlags cmd spec;; submit w spec')) /\
  (customize.kind cmd = "Windows" ->
     exists spec,
       resolveSpec w cmd (Arg args 0) = (Ok spec, []) /\
       Spec.NicSettingMap spec = replicate (length (customize.ip cmd)) AdapterMapping.zero /\
       length (Spec.NicSettingMap spec) = length (customize.ip cmd) /\
       Spec.Identity spec =
         SysprepIdentity
           (Sysprep.mk GuiUnattended.zero (UserData.mk "" "" VirtualMachineName "")
              Identification.zero) /\
       Run w cmd args = (spec' <- applyFlags cmd spec;; submit w spec')) /\
  (customize.kind cmd <> "Linux" -> customize.kind cmd <> "Windows" ->
     resolveSpec w cmd (Arg args 0) = (Failed ErrHelp, []) /\
     Run w cmd args = (Failed ErrHelp, [])) /\
  customize.kind registered = "Linux".
Proof.
  intros Hvm Hname.
  assert (Hgo : forall spec, resolveSpec w cmd (Arg args 0) = (Ok spec, []) ->
            length (Spec.NicSettingMap spec) = length (customize.ip cmd) ->
            Run w cmd args = (spec' <- applyFlags cmd spec;; submit w spec')).
  { intros spec Hres Hlen. rewrite (Run_with_vm _ _ _ _ Hvm).
    rewrite (prepare_resolved _ _ _ _ _ Hres), Hlen, Nat.ltb_irrefl.
    by destruct (applyFlags cmd spec). }
  rewrite Hname in *. unfold resolveSpec, newSpec in *. simpl String.eqb in *. cbv iota in *.
  split; [|split; [|split]].
  - intros Hk. rewrite Hk in *. simpl. eexists. split; [reflexivity|].
    simpl. rewrite length_replicate. repeat (split; [reflexivity|]).
    apply Hgo; [reflexivity|]. simpl. apply length_replicate.
  - intros Hk. rewrite Hk in *. simpl. eexists. split; [reflexivity|].
    simpl. rewrite length_replicate. repeat (split; [reflexivity|]).
    apply Hgo; [reflexivity|]. simpl. apply length_replicate.
  - intros HL HW. apply String.eqb_neq in HL, HW. rewrite HL, HW. split; [reflexivity|].
    rewrite (Run_with_vm _ _ _ _ Hvm). unfold prepare, resolveSpec, newSpec.
    rewrite Hname. simpl String.eqb. cbv iota. by rewrite HL, HW.
  - reflexivity.
Qed.

(** C2 at work: [-type BSD] is a usage error. *)
Lemma C2_fresh_spec_witness :
  resolveSpec sampleWorld (sampleFlags "BSD" 0) (Arg [] 0) = (Failed ErrHelp, []) /\
  Run sampleWorld (sampleFlags "BSD" 0) [] = (Failed ErrHelp, []).
Proof.
  apply (C2_fresh_spec sampleWorld (sampleFlags "BSD" 0) [] "vm-42");
    [reflexivity | reflexivity | discriminate | discriminate].
Defined.

(** ** C7: a NAME the manager does not know *)

(** C7.  With a NAME argument the manager is asked whether the specification
    exists.  When it does not, the run ends there with the error
    ["specification %q does not exist"] formatted with the name; when the
    existence check or the fetch fails, the run ends with that very error.
    In each case the trace holds the calls to the manager and nothing else:
    no specification was obtained, no adapter was written, nothing was
    submitted. *)
Theorem C7_unknown_name w cmd args vm name :
  World.VirtualMachine w = Value (Some vm) ->
  Arg args 0 = name ->
  name <> "" ->
  (World.DoesCustomizationSpecExist w name = Value false ->
     Run w cmd args =
       (Failed (Errorf "specification %q does not exist" [ArgString name]),
        [CallExists name]) /\
     contains "specification %q does not exist" "does not exist" = true) /\
  (forall e, World.DoesCustomizationSpecExist w name = Error e ->
     Run w cmd args = (Failed e, [CallExists name])) /\
  (forall e, World.DoesCustomizationSpecExist w name = Value true ->
     World.GetCustomizationSpec w name = Error e ->
     Run w cmd args = (Failed e, [CallExists name; CallGet name])) /\
  ((forall spec0, outcome (resolveSpec w cmd name) <> Ok spec0) ->
     mutations (trace (Run w cmd args)) = 0 /\
     submissions (trace (Run w cmd args)) = []).
Proof.
  intros Hvm Hname Hne. apply String.eqb_neq in Hne.
  rewrite (Run_with_vm _ _ _ _ Hvm), Hname.
  split; [|split; [|split]].
  - intros Hex. unfold prepare, resolveSpec, fetchSpec, call. by rewrite Hne, Hex.
  - intros e Hex. unfold prepare, resolveSpec, fetchSpec, call. by rewrite Hne, Hex.
  - intros e Hex Hget. unfold prepare, resolveSpec, fetchSpec, call.
    by rewrite Hne, Hex, Hget.
  - intros Hno. rewrite (prepare_unresolved _ _ _ Hno).
    destruct (resolveSpec_quiet w cmd name) as [Hmut Hsub].
    destruct (outcome (resolveSpec w cmd name)) as [spec0|e|p];
      [by destruct (Hno spec0)|done..].
Qed.

(** C7 at work: the template ["bsd"] is not stored. *)
Lemma C7_unknown_name_witness :
  Run sampleWorld (sampleFlags "Linux" 0) ["bsd"] =
    (Failed (Errorf "specification %q does not exist" [ArgString "bsd"]),
     [CallExists "bsd"]) /\
  contains "specification %q does not exist" "does not exist" = true.
Proof.
  apply (C7_unknown_name sampleWorld (sampleFlags "Linux" 0) ["bsd"] "vm-42" "bsd");
    [reflexivity | reflexivity | discriminate | reflexivity].
Defined.

(** ** The loop body, field by field *)

(** [if i < len(l) { ... l[i] ... }] reads the entry of [l] at [i], if any. *)
Lemma guarded_index {A} (l : list string) (i : nat) (f : string -> A) (old : A) :
  (if (i <? length l)%nat then f (nth i l "") else old) =
  match l !! i with Some x => f x | None => old end.
Proof.
  destruct (Nat.ltb_spec i (length l)) as [Hlt|Hge].
  - destruct (lookup_lt_is_Some_2 l i Hlt) as [x Hx]. rewrite Hx.
    f_equal. rewrite nth_lookup. by rewrite Hx.
  - by rewrite (lookup_ge_None_2 l i Hge).
Qed.

Lemma setNic_Ip isWindows cmd i ip nic :
  IPSettings.Ip (AdapterMapping.Adapter (setNic isWindows cmd i ip nic)) =
  if String.eqb ip "dhcp" then DhcpIpGenerator else FixedIp ip.
Proof.
  unfold setNic. destruct nic as [m [g s gw d dd]].
  destruct isWindows; repeat (destruct (_ <? _)%nat; simpl); reflexivity.
Qed.

Lemma setNic_SubnetMask isWindows cmd i ip nic :
  IPSettings.SubnetMask (AdapterMapping.Adapter (setNic isWindows cmd i ip nic)) =
  match customize.netmask cmd !! i with
  | Some mask => mask
  | None => IPSettings.SubnetMask (AdapterMapping.Adapter nic)
  end.
Proof.
  rewrite <- (guarded_index _ _ (fun x => x)).
  unfold setNic. destruct nic as [m [g s gw d dd]].
  destruct isWindows; repeat (destruct (_ <? _)%nat; simpl); reflexivity.
Qed.

Lemma setNic_MacAddress isWindows cmd i ip nic :
  AdapterMapping.MacAddress (setNic isWindows cmd i ip nic) =
  match customize.mac cmd !! i with
  | Some mac => mac
  | None => AdapterMapping.MacAddress nic
  end.
Proof.
  rewrite <- (guarded_index _ _ (fun x => x)).
  unfold setNic. destruct nic as [m [g s gw d dd]].
  destruct isWindows; repeat (destruct (_ <? _)%nat; simpl); reflexivity.
Qed.

Lemma setNic_Gateway isWindows cmd i ip nic :
  IPSettings.Gateway (AdapterMapping.Adapter (setNic isWindows cmd i ip nic)) =
  match customize.gateway cmd !! i with
  | Some gw => Split gw comma
  | None => IPSettings.Gateway (AdapterMapping.Adapter nic)
  end.
Proof.
  rewrite <- (guarded_index _ _ (fun x => Split x comma)).
  unfold setNic. destruct nic as [m [g s gw d dd]].
  destruct isWindows; repeat (destruct (_ <? _)%nat; simpl); reflexivity.
Qed.

Lemma setNic_DnsServerList isWindows cmd i ip nic :
  IPSettings.DnsServerList (AdapterMapping.Adapter (setNic isWindows cmd i ip nic)) =
  if isWindows then
    match customize.dnsserver cmd !! i with
    | Some dns => Split dns comma
    | None => IPSettings.DnsServerList (AdapterMapping.Adapter nic)
    end
  else IPSettings.DnsServerList (AdapterMapping.Adapter nic).
Proof.
  rewrite <- (guarded_index _ _ (fun x => Split x comma)).
  unfold setNic. destruct nic as [m [g s gw d dd]].
  destruct isWindows; repeat (destruct (_ <? _)%nat; simpl); reflexivity.
Qed.

Lemma setNic_DnsDomain isWindows cmd i ip nic :
  IPSettings.DnsDomain (AdapterMapping.Adapter (setNic isWindows cmd i ip nic)) =
  IPSettings.DnsDomain (AdapterMapping.Adapter nic).
Proof.
  unfold setNic. destruct nic as [m [g s gw d dd]].
  destruct isWindows; repeat (destruct (_ <? _)%nat; simpl); reflexivity.
Qed.

(** ** What a run submits *)

(** The specification a run submits is the resolved one after the settings,
    with the first [len(cmd.ip)] adapter mappings rewritten by the loop body
    and the others untouched. *)
Lemma Run_submitted w cmd args spec0 spec' :
  outcome (resolveSpec w cmd (Arg args 0)) = Ok spec0 ->
  In (CallCustomize spec') (trace (Run w cmd args)) ->
  length (customize.ip cmd) <= length (Spec.NicSettingMap spec0) /\
  length (Spec.NicSettingMap spec') = length (Spec.NicSettingMap spec0) /\
  (forall k ip, customize.ip cmd !! k = Some ip ->
     exists nic0,
       Spec.NicSettingMap spec0 !! k = Some nic0 /\
       Spec.NicSettingMap spec' !! k = Some (setNic (isSysprep spec0) cmd k ip nic0)) /\
  (forall j, length (customize.ip cmd) <= j ->
     Spec.NicSettingMap spec' !! j = Spec.NicSettingMap spec0 !! j) /\
  exists spec1,
    outcome (applySettings (isSysprep spec0) cmd spec0) = Ok spec1 /\
    Spec.Identity spec' = Spec.Identity spec1 /\
    Spec.GlobalIPSettings spec' = Spec.GlobalIPSettings spec1 /\
    Spec.EncryptionKey spec' = Spec.EncryptionKey spec1.
Proof.
  intros Hres Hin. apply Run_submission_iff in Hin as [_ Hprep].
  apply prepare_Ok_inv in Hprep
    as (spec0' & spec1 & nics' & Hres' & Hle & Hset & -> & _ & Hlen & Hframe & Hwrite).
  rewrite Hres in Hres'. injection Hres' as <-.
  split; [done|]. split; [done|]. split; [|split; [done|]].
  - intros k ip Hk. simpl. rewrite (Hwrite k ip Hk).
    destruct (lookup_lt_is_Some_2 (Spec.NicSettingMap spec0) k) as [nic0 Hnic0].
    { apply lookup_lt_Some in Hk. lia. }
    exists nic0. by rewrite Hnic0.
  - by exists spec1.
Qed.

(** A run with a virtual machine, a resolved specification, enough slots
    and settings that succeed does submit. *)
Lemma Run_submits w cmd args vm spec0 spec1 :
  World.VirtualMachine w = Value (Some vm) ->
  outcome (resolveSpec w cmd (Arg args 0)) = Ok spec0 ->
  length (customize.ip cmd) <= length (Spec.NicSettingMap spec0) ->
  outcome (applySettings (isSysprep spec0) cmd spec0) = Ok spec1 ->
  exists spec', In (CallCustomize spec') (trace (Run w cmd args)).
Proof.
  intros Hvm Hres Hle Hset.
  destruct (applyFlags_Ok cmd spec0 spec1 Hle Hset) as (nics' & Hrun & _).
  exists (Spec.set_NicSettingMap nics' spec1). apply Run_submission_iff.
  split; [eauto|].
  rewrite (prepare_resolved w cmd _ spec0 (trace (resolveSpec w cmd (Arg args 0)))).
  - apply Nat.ltb_ge in Hle. by rewrite Hle, Hrun.
  - by rewrite <- Hres, <- M_eta.
Qed.

Lemma Run_submitted_resolved w cmd args spec' :
  In (CallCustomize spec') (trace (Run w cmd args)) ->
  exists spec0, outcome (resolveSpec w cmd (Arg args 0)) = Ok spec0.
Proof.
  intros Hin. apply Run_submission_iff in Hin as [_ Hprep].
  apply prepare_Ok_inv in Hprep as (spec0 & _ & _ & Hres & _). eauto.
Qed.

(** ** C6: the address generator *)

(** C6.  The loop body sets the address generator of the adapter from the
    [-ip] value alone: the DHCP generator, which holds no address, for the
    literal ["dhcp"], and the fixed-address generator holding exactly the
    value otherwise.  So in the specification a run submits, for every
    index [i] of an [-ip] value, adapter [i] has that generator. *)
Theorem C6_address_generator w cmd args spec' :
  In (CallCustomize spec') (trace (Run w cmd args)) ->
  (forall isWindows i ip nic,
     IPSettings.Ip (AdapterMapping.Adapter (setNic isWindows cmd i ip nic)) =
       if String.eqb ip "dhcp" then DhcpIpGenerator else FixedIp ip) /\
  (forall i ip, customize.ip cmd !! i = Some ip ->
     exists nic',
       Spec.NicSettingMap spec' !! i = Some nic' /\
       (ip = "dhcp" ->
          IPSettings.Ip (AdapterMapping.Adapter nic') = DhcpIpGenerator) /\
       (ip <> "dhcp" ->
          IPSettings.Ip (AdapterMapping.Adapter nic') = FixedIp ip)).
Proof.
  intros Hin. split; [intros; apply setNic_Ip|].
  intros i ip Hip.
  destruct (Run_submitted_resolved _ _ _ _ Hin) as [spec0 Hres].
  destruct (Run_submitted _ _ _ _ _ Hres Hin) as (_ & _ & Hwrite & _).
  destruct (Hwrite i ip Hip) as (nic0 & _ & Hnic').
  eexists. split; [exact Hnic'|]. rewrite setNic_Ip. split.
  - by intros ->.
  - intros Hne. apply String.eqb_neq in Hne. by rewrite Hne.
Qed.

(** C6 at work: [-ip 10.0.0.5 -ip dhcp] on a fresh Linux specification. *)
Lemma C6_address_generator_witness :
  exists spec' nic0 nic1,
    In (CallCustomize spec') (trace (Run sampleWorld (sampleFlags "Linux" 0) [])) /\
    Spec.NicSettingMap spec' !! 0 = Some nic0 /\
    IPSettings.Ip (AdapterMapping.Adapter nic0) = FixedIp "10.0.0.5" /\
    Spec.NicSettingMap spec' !! 1 = Some nic1 /\
    IPSettings.Ip (AdapterMapping.Adapter nic1) = DhcpIpGenerator.
Proof.
  eassert (Hin : In (CallCustomize _)
                   (trace (Run sampleWorld (sampleFlags "Linux" 0) []))).
  { vm_compute. right. right. left. reflexivity. }
  destruct (C6_address_generator _ _ _ _ Hin) as [_ Hgen].
  destruct (Hgen 0 "10.0.0.5" eq_refl) as (nic0 & Hnic0 & _ & Hfixed).
  destruct (Hgen 1 "dhcp" eq_refl) as (nic1 & Hnic1 & Hdhcp & _).
  eexists; exists nic0, nic1. split; [exact Hin|].
  split; [exact Hnic0|]. split; [apply Hfixed; discriminate|].
  split; [exact Hnic1|]. by apply Hdhcp.
Defined.

(** ** C8: netmask, MAC address and gateway *)

(** C8.  The loop body sets the netmask, the MAC address and the gateway
    list of the adapter from entry [i] of [-netmask], [-mac] and [-gateway]
    (the gateway split at commas) when that list has an entry [i], and
    leaves the field as it is when the list is too short.  So in the
    specification a run submits, for every index [i] of an [-ip] value,
    these fields of adapter [i] are the entries at [i] where there is one
    and those of the resolved specification otherwise.  The DNS domain of
    the adapter is never touched, and the adapters past the last [-ip] value
    are not touched at all. *)
Theorem C8_adapter_fields w cmd args spec0 spec' :
  outcome (resolveSpec w cmd (Arg args 0)) = Ok spec0 ->
  In (CallCustomize spec') (trace (Run w cmd args)) ->
  (forall isWindows i ip nic,
     IPSettings.SubnetMask (AdapterMapping.Adapter (setNic isWindows cmd i ip nic)) =
       match customize.netmask cmd !! i with
       | Some mask => mask
       | None => IPSettings.SubnetMask (AdapterMapping.Adapter nic)
       end /\
     AdapterMapping.MacAddress (setNic isWindows cmd i ip nic) =
       match customize.mac cmd !! i with
       | Some mac => mac
       | None => AdapterMapping.MacAddress nic
       end /\
     IPSettings.Gateway (AdapterMapping.Adapter (setNic isWindows cmd i ip nic)) =
       match customize.gateway cmd !! i with
       | Some gw => Split gw comma
       | None => IPSettings.Gateway (AdapterMapping.Adapter nic)
       end) /\
  (forall i ip, customize.ip cmd !! i = Some ip ->
     exists nic0 nic',
       Spec.NicSettingMap spec0 !! i = Some nic0 /\
       Spec.NicSettingMap spec' !! i = Some nic' /\
       IPSettings.SubnetMask (AdapterMapping.Adapter nic') =
         match customize.netmask cmd !! i with
         | Some mask => mask
         | None => IPSettings.SubnetMask (AdapterMapping.Adapter nic0)
         end /\
       AdapterMapping.MacAddress nic' =
         match customize.mac cmd !! i with
         | Some mac => mac
         | None => AdapterMapping.MacAddress nic0
         end /\
       IPSettings.Gateway (AdapterMapping.Adapter nic') =
         match customize.gateway cmd !! i with
         | Some gw => Split gw comma
         | None => IPSettings.Gateway (AdapterMapping.Adapter nic0)
         end /\
       IPSettings.DnsDomain (AdapterMapping.Adapter nic') =
         IPSettings.DnsDomain (AdapterMapping.Adapter nic0)) /\
  (forall i, length (customize.ip cmd) <= i ->
     Spec.NicSettingMap spec' !! i = Spec.NicSettingMap spec0 !! i).
Proof.
  intros Hres Hin.
  destruct (Run_submitted _ _ _ _ _ Hres Hin) as (_ & _ & Hwrite & Hframe & _).
  split; [|split; [|exact Hframe]].
  { intros isWindows i ip nic.
    by rewrite setNic_SubnetMask, setNic_MacAddress, setNic_Gateway. }
  intros i ip Hip. destruct (Hwrite i ip Hip) as (nic0 & Hnic0 & Hnic').
  exists nic0. eexists. split; [exact Hnic0|]. split; [exact Hnic'|].
  rewrite setNic_SubnetMask, setNic_MacAddress, setNic_Gateway, setNic_DnsDomain.
  done.
Qed.

(** C8 at work: two [-ip] values and one [-netmask] against the template
    ["windows"]: the first adapter gets the netmask, the second keeps its
    own (empty) one. *)
Lemma C8_adapter_fields_witness :
  exists spec' nic0 nic1,
    In (CallCustomize spec') (trace (Run sampleWorld (sampleFlags "Windows" 0) ["windows"])) /\
    Spec.NicSettingMap spec' !! 0 = Some nic0 /\
    IPSettings.SubnetMask (AdapterMapping.Adapter nic0) = "255.255.255.0" /\
    Spec.NicSettingMap spec' !! 1 = Some nic1 /\
    IPSettings.SubnetMask (AdapterMapping.Adapter nic1) = "".
Proof.
  eassert (Hin : In (CallCustomize _)
                   (trace (Run sampleWorld (sampleFlags "Windows" 0) ["windows"]))).
  { vm_compute. do 4 right. left. reflexivity. }
  destruct (C8_adapter_fields sampleWorld (sampleFlags "Windows" 0) ["windows"]
              windowsTemplate _ eq_refl Hin) as (_ & Hfields & _).
  destruct (Hfields 0 "10.0.0.5" eq_refl) as (n0 & nic0 & Hn0 & Hnic0 & Hmask0 & _).
  destruct (Hfields 1 "dhcp" eq_refl) as (n1 & nic1 & Hn1 & Hnic1 & Hmask1 & _).
  eexists; exists nic0, nic1. split; [exact Hin|].
  split; [exact Hnic0|]. split; [exact Hmask0|]. split; [exact Hnic1|].
  rewrite Hmask1. injection Hn1 as <-. reflexivity.
Defined.

(** ** C3: DNS servers *)

Lemma appendDns_concat (servers dns : list string) :
  appendDns dns servers = dns ++ List.concat (List.map (fun s => Split s comma) servers).
Proof.
  unfold appendDns. revert dns.
  induction servers as [|s rest IH]; intros dns; simpl; [by rewrite app_nil_r|].
  by rewrite IH, app_assoc.
Qed.

(** The global IP settings after the settings: untouched for a sysprep
    identity, with the DNS servers appended otherwise. *)
Lemma applySettings_global cmd spec spec1 :
  outcome (applySettings (isSysprep spec) cmd spec) = Ok spec1 ->
  Spec.GlobalIPSettings spec1 =
  if isSysprep spec then Spec.GlobalIPSettings spec
  else GlobalIPSettings.set_DnsServerList
         (appendDns (GlobalIPSettings.DnsServerList (Spec.GlobalIPSettings spec))
            (customize.dnsserver cmd))
         (Spec.GlobalIPSettings spec).
Proof.
  destruct (identity_cases spec) as [(l & Hid & HW) | [(y & Hid & HW) | [HW HL]]];
    rewrite HW.
  - destruct spec as [id g nics key]; simpl in Hid; subst id.
    rewrite applySettings_linux. destruct (negb _); simpl; intros [=]; by subst.
  - destruct spec as [id g nics key]; simpl in Hid; subst id.
    rewrite applySettings_windows. cbv zeta.
    destruct (negb (String.eqb _ _)); [destruct (ParseInt _ _ _)|];
      simpl; intros [=]; by subst.
  - rewrite (applySettings_other _ _ HW HL).
    repeat (destruct (_ || _) || destruct (negb _)); simpl; intros [=]; by subst.
Qed.

(** C3.  With [-dns-server] values given, the global step appends the
    comma-separated pieces of every value, in order, to the global DNS server
    list when the identity is not the sysprep variant, and does nothing when
    it is; the loop body sets the DNS list of an adapter, for a sysprep
    identity only, to the comma-split entry [i] of [-dns-server] when there
    is one.  So in the specification a run submits: when the resolved
    identity is not the sysprep variant, the global DNS server list is the
    resolved one followed by those pieces and the DNS list of every adapter
    is as it was; when it is the sysprep variant, the global IP settings are
    as they were, and the DNS list of adapter [i] is the comma-split entry
    [i] of [-dns-server] when [i] is an index of both [-ip] and
    [-dns-server], and as it was otherwise. *)
Theorem C3_dns w cmd args spec0 spec' :
  outcome (resolveSpec w cmd (Arg args 0)) = Ok spec0 ->
  In (CallCustomize spec') (trace (Run w cmd args)) ->
  (customize.dnsserver cmd <> [] ->
   forall spec,
     setGlobalDns false cmd spec =
       ret (Spec.set_GlobalIPSettings
              (GlobalIPSettings.set_DnsServerList
                 (GlobalIPSettings.DnsServerList (Spec.GlobalIPSettings spec) ++
                  List.concat (List.map (fun s => Split s comma) (customize.dnsserver cmd)))
                 (Spec.GlobalIPSettings spec)) spec) /\
     setGlobalDns true cmd spec = ret spec) /\
  (forall isWindows i ip nic,
     IPSettings.DnsServerList (AdapterMapping.Adapter (setNic isWindows cmd i ip nic)) =
       if isWindows then
         match customize.dnsserver cmd !! i with
         | Some dns => Split dns comma
         | None => IPSettings.DnsServerList (AdapterMapping.Adapter nic)
         end
       else IPSettings.DnsServerList (AdapterMapping.Adapter nic)) /\
  (isSysprep spec0 = false ->
     GlobalIPSettings.DnsServerList (Spec.GlobalIPSettings spec') =
       GlobalIPSettings.DnsServerList (Spec.GlobalIPSettings spec0) ++
       List.concat (List.map (fun s => Split s comma) (customize.dnsserver cmd)) /\
     forall i nic0, Spec.NicSettingMap spec0 !! i = Some nic0 ->
       exists nic',
         Spec.NicSettingMap spec' !! i = Some nic' /\
         IPSettings.DnsServerList (AdapterMapping.Adapter nic') =
           IPSettings.DnsServerList (AdapterMapping.Adapter nic0)) /\
  (isSysprep spec0 = true ->
     Spec.GlobalIPSettings spec' = Spec.GlobalIPSettings spec0 /\
     forall i nic0, Spec.NicSettingMap spec0 !! i = Some nic0 ->
       exists nic',
         Spec.NicSettingMap spec' !! i = Some nic' /\
         IPSettings.DnsServerList (AdapterMapping.Adapter nic') =
           match customize.ip cmd !! i, customize.dnsserver cmd !! i with
           | Some _, Some dns => Split dns comma
           | _, _ => IPSettings.DnsServerList (AdapterMapping.Adapter nic0)
           end).
Proof.
  intros Hres Hin.
  split; [|split; [intros; apply setNic_DnsServerList|]].
  { intros Hdns spec. unfold setGlobalDns. rewrite appendDns_concat.
    by destruct (customize.dnsserver cmd). }
  destruct (Run_submitted _ _ _ _ _ Hres Hin)
    as (_ & _ & Hwrite & Hframe & spec1 & Hset & _ & Hglobal & _).
  rewrite Hglobal, (applySettings_global _ _ _ Hset).
  assert (Hnic : forall i nic0, Spec.NicSettingMap spec0 !! i = Some nic0 ->
            exists nic', Spec.NicSettingMap spec' !! i = Some nic' /\
              IPSettings.DnsServerList (AdapterMapping.Adapter nic') =
              match customize.ip cmd !! i with
              | Some _ =>
                  if isSysprep spec0 then
                    match customize.dnsserver cmd !! i with
                    | Some dns => Split dns comma
                    | None => IPSettings.DnsServerList (AdapterMapping.Adapter nic0)
                    end
                  else IPSettings.DnsServerList (AdapterMapping.Adapter nic0)
              | None => IPSettings.DnsServerList (AdapterMapping.Adapter nic0)
              end).
  { intros i nic0 Hnic0. destruct (customize.ip cmd !! i) as [ip|] eqn:Hip.
    - destruct (Hwrite i ip Hip) as (nic0' & Hnic0' & Hnic').
      injection (eq_trans (eq_sym Hnic0) Hnic0') as <-.
      eexists. split; [exact Hnic'|]. apply setNic_DnsServerList.
    - apply lookup_ge_None in Hip. exists nic0.
      split; [exact (eq_trans (Hframe i Hip) Hnic0) | reflexivity]. }
  split; intros HW; rewrite HW in *.
  - split; [simpl; apply appendDns_concat|].
    intros i nic0 Hnic0. destruct (Hnic i nic0 Hnic0) as (nic' & Hnic' & Hdns).
    exists nic'. split; [done|]. rewrite Hdns. by destruct (customize.ip cmd !! i).
  - split; [done|].
    intros i nic0 Hnic0. destruct (Hnic i nic0 Hnic0) as (nic' & Hnic' & Hdns).
    exists nic'. split; [done|]. rewrite Hdns.
    destruct (customize.ip cmd !! i); [|done]. by destruct (customize.dnsserver cmd !! i).
Qed.

(** C3 at work: [-dns-server 8.8.8.8,8.8.4.4] against the template ["linux"]
    goes to the global list; against the template ["windows"] it goes to
    the first adapter only. *)
Lemma C3_dns_witness :
  (exists spec',
     In (CallCustomize spec')
       (trace (Run sampleWorld dnsFlags ["linux"])) /\
     GlobalIPSettings.DnsServerList (Spec.GlobalIPSettings spec') =
       ["10.0.0.1"; "8.8.8.8"; "8.8.4.4"]) /\
  (exists spec' nic0 nic1,
     In (CallCustomize spec')
       (trace (Run sampleWorld (sampleFlags "Windows" 0) ["windows"])) /\
     Spec.GlobalIPSettings spec' = Spec.GlobalIPSettings windowsTemplate /\
     Spec.NicSettingMap spec' !! 0 = Some nic0 /\
     IPSettings.DnsServerList (AdapterMapping.Adapter nic0) = ["8.8.8.8"; "8.8.4.4"] /\
     Spec.NicSettingMap spec' !! 1 = Some nic1 /\
     IPSettings.DnsServerList (AdapterMapping.Adapter nic1) = ["10.0.0.3"]).
Proof.
  split.
  - eassert (Hin : In (CallCustomize _) (trace (Run sampleWorld dnsFlags ["linux"]))).
    { vm_compute. do 3 right. left. reflexivity. }
    destruct (C3_dns sampleWorld dnsFlags ["linux"] linuxTemplate _ eq_refl Hin)
      as (_ & _ & Hlinux & _).
    destruct (Hlinux eq_refl) as [Hglobal _].
    eexists. split; [exact Hin|]. exact Hglobal.
  - eassert (Hin : In (CallCustomize _)
                     (trace (Run sampleWorld (sampleFlags "Windows" 0) ["windows"]))).
    { vm_compute. do 4 right. left. reflexivity. }
    destruct (C3_dns sampleWorld (sampleFlags "Windows" 0) ["windows"] windowsTemplate
                _ eq_refl Hin) as (_ & _ & _ & Hwin).
    destruct (Hwin eq_refl) as [Hglobal Hnics].
    destruct (Hnics 0 _ eq_refl) as (nic0 & Hnic0 & Hdns0).
    destruct (Hnics 1 _ eq_refl) as (nic1 & Hnic1 & Hdns1).
    eexists; exists nic0, nic1. split; [exact Hin|]. split; [exact Hglobal|].
    split; [exact Hnic0|]. split; [exact Hdns0|]. split; [exact Hnic1|]. exact Hdns1.
Defined.

(** ** The identity after the settings *)

Lemma negb_eqb_true (a : string) : negb (String.eqb a "") = true <-> a <> "".
Proof. destruct (String.eqb_spec a ""); simpl; split; congruence. Qed.

Lemma negb_eqb_false (a : string) : negb (String.eqb a "") = false <-> a = "".
Proof. destruct (String.eqb_spec a ""); simpl; split; congruence. Qed.

(** A Linux-prep identity stays one; the settings succeed only without
    [-auto-login]. *)
Lemma settings_linux_inv cmd spec l spec1 :
  Spec.Identity spec = LinuxPrepIdentity l ->
  outcome (applySettings (isSysprep spec) cmd spec) = Ok spec1 ->
  customize.alc cmd = 0%Z /\
  exists l1,
    Spec.Identity spec1 = LinuxPrepIdentity l1 /\
    LinuxPrep.HostName l1 =
      (if negb (String.eqb (FixedName.Name (customize.host cmd)) "")
       then FixedNameGen (customize.host cmd)
       else if negb (String.eqb (PrefixName.Base (customize.prefix cmd)) "")
            then PrefixNameGen (customize.prefix cmd)
            else LinuxPrep.HostName l) /\
    LinuxPrep.Domain l1 =
      (if negb (String.eqb (customize.domain cmd) "")
       then customize.domain cmd else LinuxPrep.Domain l) /\
    LinuxPrep.TimeZone l1 =
      (if negb (String.eqb (customize.tz cmd) "")
       then customize.tz cmd else LinuxPrep.TimeZone l) /\
    LinuxPrep.HwClockUTC l1 = LinuxPrep.HwClockUTC l /\
    LinuxPrep.ScriptText l1 = LinuxPrep.ScriptText l.
Proof.
  intros Hid. destruct spec as [id g nics key]; simpl in Hid; subst id.
  unfold isSysprep. simpl. rewrite applySettings_linux.
  destruct (Z.eqb_spec (customize.alc cmd) 0); simpl; [|discriminate].
  intros [= <-]. split; [done|]. eexists. split; [reflexivity|]. by simpl.
Qed.

(** A sysprep identity stays one; the settings succeed only when [-tz] is
    empty or parses. *)
Lemma settings_windows_inv cmd spec y spec1 :
  Spec.Identity spec = SysprepIdentity y ->
  outcome (applySettings (isSysprep spec) cmd spec) = Ok spec1 ->
  exists y1,
    Spec.Identity spec1 = SysprepIdentity y1 /\
    UserData.ComputerName (Sysprep.UserData y1) =
      (if negb (String.eqb (FixedName.Name (customize.host cmd)) "")
       then FixedNameGen (customize.host cmd)
       else if negb (String.eqb (PrefixName.Base (customize.prefix cmd)) "")
            then PrefixNameGen (customize.prefix cmd)
            else UserData.ComputerName (Sysprep.UserData y)) /\
    Identification.JoinDomain (Sysprep.Identification y1) =
      (if negb (String.eqb (customize.domain cmd) "")
       then customize.domain cmd
       else Identification.JoinDomain (Sysprep.Identification y)) /\
    GuiUnattended.AutoLogon (Sysprep.GuiUnattended y1) =
      (if negb (customize.alc cmd =? 0)%Z then true
       else GuiUnattended.AutoLogon (Sysprep.GuiUnattended y)) /\
    GuiUnattended.AutoLogonCount (Sysprep.GuiUnattended y1) =
      (if negb (customize.alc cmd =? 0)%Z then int32 (customize.alc cmd)
       else GuiUnattended.AutoLogonCount (Sysprep.GuiUnattended y)) /\
    (if negb (String.eqb (customize.tz cmd) "")
     then exists tz, ParseInt (customize.tz cmd) 16 32 = inl tz /\
            GuiUnattended.TimeZone (Sysprep.GuiUnattended y1) = int32 tz
     else GuiUnattended.TimeZone (Sysprep.GuiUnattended y1) =
            GuiUnattended.TimeZone (Sysprep.GuiUnattended y)).
Proof.
  intros Hid. destruct spec as [id g nics key]; simpl in Hid; subst id.
  unfold isSysprep. simpl. rewrite applySettings_windows. cbv zeta.
  destruct (negb (String.eqb (customize.tz cmd) "")).
  - destruct (ParseInt (customize.tz cmd) 16 32) as [tz|err]; simpl; [|discriminate].
    intros [= <-]. eexists. split; [reflexivity|]. simpl.
    repeat (split; [by destruct (negb (customize.alc cmd =? 0)%Z)|]). eauto.
  - simpl. intros [= <-]. eexists. split; [reflexivity|]. simpl.
    repeat (split; [by destruct (negb (customize.alc cmd =? 0)%Z)|]).
    by destruct (negb (customize.alc cmd =? 0)%Z).
Qed.

(** With any other identity the settings succeed only when no flag writes
    to the identity. *)
Lemma settings_other_inv cmd spec spec1 :
  isSysprep spec = false -> isLinuxPrep spec = false ->
  outcome (applySettings (isSysprep spec) cmd spec) = Ok spec1 ->
  customize.domain cmd = "" /\ PrefixName.Base (customize.prefix cmd) = "" /\
  FixedName.Name (customize.host cmd) = "" /\ customize.tz cmd = "" /\
  customize.alc cmd = 0%Z /\ Spec.Identity spec1 = Spec.Identity spec.
Proof.
  intros HW HL. rewrite HW, (applySettings_other _ _ HW HL).
  destruct (String.eqb_spec (customize.domain cmd) ""); simpl; [|discriminate].
  destruct (String.eqb_spec (PrefixName.Base (customize.prefix cmd)) ""); simpl;
    [|discriminate].
  destruct (String.eqb_spec (FixedName.Name (customize.host cmd)) ""); simpl;
    [|discriminate].
  destruct (Z.eqb_spec (customize.alc cmd) 0); simpl; [|discriminate].
  destruct (String.eqb_spec (customize.tz cmd) ""); simpl; [|discriminate].
  intros [= <-]. by simpl.
Qed.

(** ** C10: [-name] against [-prefix] *)

Lemma setNic_set_prefix isWindows cmd p i ip nic :
  setNic isWindows (customize.set_prefix p cmd) i ip nic = setNic isWindows cmd i ip nic.
Proof. reflexivity. Qed.

Lemma nicLoop_set_prefix isWindows cmd p ips : forall i nics,
  nicLoop isWindows (customize.set_prefix p cmd) i ips nics =
  nicLoop isWindows cmd i ips nics.
Proof.
  induction ips as [|ip rest IH]; intros i nics; [reflexivity|].
  simpl. destruct (nics !! i) as [nic|]; [|reflexivity].
  by rewrite IH, setNic_set_prefix.
Qed.

(** With a host name given, the prefix generator is overwritten at once. *)
Lemma setPrefix_setHost isWindows cmd spec :
  FixedName.Name (customize.host cmd) <> "" ->
  bind (setPrefix isWindows cmd spec) (setHost isWindows cmd) =
  setHost isWindows cmd spec.
Proof.
  intros Hhost. apply negb_eqb_true in Hhost.
  unfold setPrefix, setHost, setName, viaSysprep, viaLinprep. rewrite Hhost.
  destruct (negb (String.eqb (PrefixName.Base (customize.prefix cmd)) ""));
    [|apply bind_ret_l].
  destruct isWindows, spec as [[|l|y| |] g nics key]; reflexivity.
Qed.

Lemma applySettings_set_prefix isWindows cmd p spec :
  FixedName.Name (customize.host cmd) <> "" ->
  applySettings isWindows (customize.set_prefix p cmd) spec =
  applySettings isWindows cmd spec.
Proof.
  intros Hhost. unfold applySettings.
  change (setDomain isWindows (customize.set_prefix p cmd) spec)
    with (setDomain isWindows cmd spec).
  destruct (setDomain isWindows cmd spec) as [[s1|e|q] t1]; [|reflexivity..].
  rewrite !bind_Ok. 
  change (setGlobalDns isWindows (customize.set_prefix p cmd) s1)
    with (setGlobalDns isWindows cmd s1).
  destruct (setGlobalDns isWindows cmd s1) as [[s2|e|q] t2]; [|reflexivity..].
  rewrite !bind_Ok.
  rewrite <- !(bind_assoc (setPrefix _ _ _)).
  rewrite (setPrefix_setHost isWindows cmd s2 Hhost).
  rewrite (setPrefix_setHost isWindows (customize.set_prefix p cmd) s2 Hhost).
  reflexivity.
Qed.

Lemma bind_ext {A B} (m : M A) (k k' : A -> M B) :
  (forall a, k a = k' a) -> bind m k = bind m k'.
Proof. intros H. destruct m as [[a|e|p] t]; simpl; by rewrite ?H. Qed.

Lemma applyFlags_set_prefix cmd p spec :
  FixedName.Name (customize.host cmd) <> "" ->
  applyFlags (customize.set_prefix p cmd) spec = applyFlags cmd spec.
Proof.
  intros Hhost. unfold applyFlags. rewrite (applySettings_set_prefix _ _ _ _ Hhost).
  apply bind_ext. intros spec1. unfold setNics.
  change (customize.ip (customize.set_prefix p cmd)) with (customize.ip cmd).
  by rewrite nicLoop_set_prefix.
Qed.

Lemma Run_set_prefix w cmd p args :
  FixedName.Name (customize.host cmd) <> "" ->
  Run w (customize.set_prefix p cmd) args = Run w cmd args.
Proof.
  intros Hhost. unfold Run. destruct (World.VirtualMachine w) as [[vm|]|e]; try reflexivity.
  f_equal. unfold prepare.
  change (resolveSpec w (customize.set_prefix p cmd) (Arg args 0))
    with (resolveSpec w cmd (Arg args 0)).
  apply bind_ext. intros spec0.
  change (checkIPs (customize.set_prefix p cmd) (Arg args 0) spec0)
    with (checkIPs cmd (Arg args 0) spec0).
  apply bind_ext. intros _. by apply applyFlags_set_prefix.
Qed.

(** C10.  With both [-prefix] and [-name] non-empty, the fixed name wins:
    the two assignments, in the order of the source, amount to the second
    one alone; the run is the same whatever the [-prefix] value; and in the
    specification a run submits the host name field of the identity
    ([ComputerName] of the sysprep user data, [HostName] of the Linux prep)
    is the fixed name. *)
Theorem C10_name_over_prefix w cmd args :
  PrefixName.Base (customize.prefix cmd) <> "" ->
  FixedName.Name (customize.host cmd) <> "" ->
  (forall isWindows spec,
     (spec1 <- setPrefix isWindows cmd spec;; setHost isWindows cmd spec1) =
     setHost isWindows cmd spec) /\
  (forall p, Run w (customize.set_prefix p cmd) args = Run w cmd args) /\
  (forall spec', In (CallCustomize spec') (trace (Run w cmd args)) ->
     match Spec.Identity spec' with
     | SysprepIdentity y =>
         UserData.ComputerName (Sysprep.UserData y) = FixedNameGen (customize.host cmd)
     | LinuxPrepIdentity l =>
         LinuxPrep.HostName l = FixedNameGen (customize.host cmd)
     | _ => False
     end).
Proof.
  intros _ Hhost. split; [|split].
  - intros isWindows spec. by apply setPrefix_setHost.
  - intros p. by apply Run_set_prefix.
  - intros spec' Hin.
    destruct (Run_submitted_resolved _ _ _ _ Hin) as [spec0 Hres].
    destruct (Run_submitted _ _ _ _ _ Hres Hin)
      as (_ & _ & _ & _ & spec1 & Hset & -> & _).
    pose proof (proj2 (negb_eqb_true _) Hhost) as Hb.
    destruct (identity_cases spec0) as [(l & Hid & HW) | [(y & Hid & HW) | [HW HL]]].
    + destruct (settings_linux_inv _ _ _ _ Hid Hset) as (_ & l1 & -> & Hname & _).
      by rewrite Hname, Hb.
    + destruct (settings_windows_inv _ _ _ _ Hid Hset) as (y1 & -> & Hname & _).
      by rewrite Hname, Hb.
    + destruct (settings_other_inv _ _ _ HW HL Hset) as (_ & _ & Hno & _). congruence.
Qed.

(** C10 at work: [-prefix demo -name web] on a fresh Linux specification
    submits the host name ["web"], as [-prefix other -name web] does. *)
Lemma C10_name_over_prefix_witness :
  Run sampleWorld (customize.set_prefix (PrefixName.mk "other") (sampleFlags "Linux" 0)) [] =
    Run sampleWorld (sampleFlags "Linux" 0) [] /\
  exists spec' l,
    In (CallCustomize spec') (trace (Run sampleWorld (sampleFlags "Linux" 0) [])) /\
    Spec.Identity spec' = LinuxPrepIdentity l /\
    LinuxPrep.HostName l = FixedNameGen (FixedName.mk "web").
Proof.
  destruct (C10_name_over_prefix sampleWorld (sampleFlags "Linux" 0) [])
    as (_ & Hsame & Hname); [discriminate | discriminate |].
  split; [apply Hsame|].
  eassert (Hin : In (CallCustomize _)
                   (trace (Run sampleWorld (sampleFlags "Linux" 0) []))).
  { vm_compute. right. right. left. reflexivity. }
  eexists. eexists. split; [exact Hin|]. split; [reflexivity|].
  exact (Hname _ Hin).
Defined.

(** ** C9: the nil Linux-prep pointer *)

(** A write through [linprep] succeeds exactly when the identity is the
    Linux-prep variant. *)
Lemma viaLinprep_safe f spec :
  (exists spec1, viaLinprep f spec = ret spec1) <-> isLinuxPrep spec = true.
Proof.
  unfold viaLinprep, isLinuxPrep.
  destruct (Spec.Identity spec); split; try discriminate; eauto; by intros [? [=]].
Qed.

Lemma viaLinprep_nil f spec :
  isLinuxPrep spec = false -> viaLinprep f spec = throw NilPointerDereference.
Proof. unfold viaLinprep, isLinuxPrep. by destruct (Spec.Identity spec). Qed.

(** C9 as stated fails: against the stored specification ["text"], whose
    identity is neither variant, [-tz UTC -auto-login 1] returns the error
    of [-auto-login], which line 193 raises before line 208 writes through
    [linprep], and [-domain example.org -ip dhcp] returns the count error of
    line 153, the specification having no adapter; neither run panics. *)
Lemma C9_counterexample :
  outcome (resolveSpec sampleWorld tzAutoLogin (Arg ["text"] 0)) = Ok textTemplate /\
  isSysprep textTemplate = false /\ isLinuxPrep textTemplate = false /\
  customize.tz tzAutoLogin <> "" /\
  Run sampleWorld tzAutoLogin ["text"] =
    (Failed (Errorf "option '-auto-login' is Windows only" []),
     [CallExists "text"; CallGet "text"]) /\
  (forall p, outcome (Run sampleWorld tzAutoLogin ["text"]) <> Panicked p) /\
  customize.domain domainOneIP <> "" /\
  Run sampleWorld domainOneIP ["text"] =
    (Failed (Errorf "%d -ip specified, spec %q has %d"
               [ArgInt 1; ArgString "text"; ArgInt 0]),
     [CallExists "text"; CallGet "text"]) /\
  (forall p, outcome (Run sampleWorld domainOneIP ["text"]) <> Panicked p).
Proof. repeat split; discriminate. Qed.

(** C9, amended.  The non-Windows branches of [-domain], [-prefix], [-name]
    and [-tz] write through [linprep]: for a specification whose identity is
    not the sysprep variant, each of them succeeds exactly when the identity
    is the Linux-prep variant, and panics on the nil pointer otherwise.  So
    for a named specification whose stored identity is neither variant, a
    run with enough adapter slots and one of these flags ([-tz] without
    [-auto-login], which is refused first) panics, with no error returned
    and nothing submitted. *)
Theorem C9_nil_linprep w cmd args vm name item :
  World.VirtualMachine w = Value (Some vm) ->
  Arg args 0 = name ->
  name <> "" ->
  World.DoesCustomizationSpecExist w name = Value true ->
  World.GetCustomizationSpec w name = Value item ->
  isSysprep (SpecItem.Spec item) = false ->
  isLinuxPrep (SpecItem.Spec item) = false ->
  (forall spec, isSysprep spec = false ->
     (customize.domain cmd <> "" ->
        ((exists spec1, setDomain false cmd spec = ret spec1) <-> isLinuxPrep spec = true) /\
        (isLinuxPrep spec = false ->
           setDomain false cmd spec = throw NilPointerDereference)) /\
     (PrefixName.Base (customize.prefix cmd) <> "" ->
        ((exists spec1, setPrefix false cmd spec = ret spec1) <-> isLinuxPrep spec = true) /\
        (isLinuxPrep spec = false ->
           setPrefix false cmd spec = throw NilPointerDereference)) /\
     (FixedName.Name (customize.host cmd) <> "" ->
        ((exists spec1, setHost false cmd spec = ret spec1) <-> isLinuxPrep spec = true) /\
        (isLinuxPrep spec = false ->
           setHost false cmd spec = throw NilPointerDereference)) /\
     (customize.tz cmd <> "" ->
        ((exists spec1, setTimeZone false cmd spec = ret spec1) <-> isLinuxPrep spec = true) /\
        (isLinuxPrep spec = false ->
           setTimeZone false cmd spec = throw NilPointerDereference))) /\
  (length (customize.ip cmd) <= length (Spec.NicSettingMap (SpecItem.Spec item)) ->
   customize.domain cmd <> "" \/ PrefixName.Base (customize.prefix cmd) <> "" \/
   FixedName.Name (customize.host cmd) <> "" \/
   (customize.tz cmd <> "" /\ customize.alc cmd = 0%Z) ->
   Run w cmd args = (Panicked NilPointerDereference, [CallExists name; CallGet name])).
Proof.
  intros Hvm Hname Hne Hex Hget HW HL. split.
  - intros spec _. unfold setDomain, setPrefix, setHost, setName, setTimeZone.
    split; [|split; [|split]];
      intros Hflag; apply negb_eqb_true in Hflag; rewrite Hflag;
      (split; [apply viaLinprep_safe | apply viaLinprep_nil]).
  - intros Hle Hflags.
    assert (Hres : resolveSpec w cmd name =
                   (Ok (SpecItem.Spec item), [CallExists name; CallGet name])).
    { unfold resolveSpec, fetchSpec, call. apply String.eqb_neq in Hne.
      by rewrite Hne, Hex, Hget. }
    apply (Run_panicked _ _ _ _ _ _ Hvm). rewrite Hname.
    rewrite (prepare_resolved _ _ _ _ _ Hres).
    apply Nat.ltb_ge in Hle. rewrite Hle.
    unfold applyFlags. rewrite HW, (applySettings_other _ _ HW HL).
    destruct Hflags as [H|[H|[H|[H Halc]]]]; apply negb_eqb_true in H.
    + rewrite H. reflexivity.
    + rewrite H, orb_true_r. reflexivity.
    + rewrite H, orb_true_r. reflexivity.
    + destruct (_ || _); [reflexivity|]. by rewrite Halc, H.
Qed.

(** C9 at work: [-domain example.org] against the template ["text"], whose
    identity is a sysprep answer file. *)
Lemma C9_nil_linprep_witness :
  Run sampleWorld domainFlags ["text"] =
    (Panicked NilPointerDereference, [CallExists "text"; CallGet "text"]).
Proof.
  apply (C9_nil_linprep sampleWorld domainFlags ["text"] "vm-42" "text"
           (SpecItem.mk "" textTemplate));
    [reflexivity | reflexivity | discriminate | reflexivity | reflexivity
    | reflexivity | reflexivity | simpl; lia | left; discriminate].
Defined.

(** ** [strconv.ParseInt] and [int32] *)

Lemma parseDigits_nonneg base maxVal cutoff s : forall n r,
  (0 <= n)%Z -> parseDigits base maxVal cutoff s n = inl r -> (0 <= r)%Z.
Proof.
  induction s as [|c rest IH]; intros n r Hn; simpl.
  - by intros [= <-].
  - destruct (digitOf _) as [d|]; [|discriminate].
    destruct (d >=? base)%Z; [discriminate|].
    destruct (n >=? cutoff)%Z; [discriminate|].
    destruct (_ || _); [discriminate|].
    apply IH. unfold uint64. apply Z.mod_pos_bound. lia.
Qed.

(** The value [ParseUint] returns is never negative. *)
Lemma ParseUint_nonneg s bitSize un err :
  (0 < bitSize)%Z -> ParseUint s 16 bitSize = (un, err) -> (0 <= un)%Z.
Proof.
  intros Hb. unfold ParseUint. destruct (String.eqb s ""); [intros [= <- _]; lia|].
  destruct (parseDigits _ _ _ s 0) as [n|[|]] eqn:Hp; intros [= <- _]; try lia.
  apply (parseDigits_nonneg _ _ _ _ _ _ (Z.le_refl 0) Hp).
Qed.

(** A range error of [ParseUint] comes with the largest value. *)
Lemma ParseUint_range s bitSize un :
  ParseUint s 16 bitSize = (un, Some ErrRange) -> un = (2 ^ bitSize - 1)%Z.
Proof.
  unfold ParseUint. destruct (String.eqb s ""); [discriminate|].
  destruct (parseDigits _ _ _ s 0) as [n|[|]]; intros [=]; congruence.
Qed.

(** An error of [ParseInt] names the function and the whole input. *)
Lemma ParseInt_error s base bitSize err :
  ParseInt s base bitSize = inr err -> Func err = "ParseInt" /\ Num err = s.
Proof.
  unfold ParseInt. destruct s as [|c rest]; [by intros [= <-]|].
  destruct (ParseUint _ base bitSize) as [un [[|]|]];
    repeat (destruct (_ && _)); intros [= <-]; done.
Qed.

(** What [ParseInt(s, 16, 32)] accepts fits in 32 bits. *)
Lemma ParseInt_16_32_range s z :
  ParseInt s 16 32 = inl z -> (- 2 ^ 31 <= z < 2 ^ 31)%Z.
Proof.
  unfold ParseInt. destruct s as [|c rest]; [discriminate|].
  destruct (ParseUint _ 16 32) as [un err] eqn:HU.
  pose proof (ParseUint_nonneg _ 32 _ _ ltac:(lia) HU) as Hun.
  change (2 ^ (32 - 1))%Z with 2147483648%Z.
  assert (Hgo : (if negb (Ascii.eqb c "-") && (un >=? 2147483648)%Z
                 then inr (mkNumError "ParseInt" (String c rest) ErrRange)
                 else if Ascii.eqb c "-" && (un >? 2147483648)%Z
                      then inr (mkNumError "ParseInt" (String c rest) ErrRange)
                      else inl (if Ascii.eqb c "-" then (- un)%Z else un)) = inl z ->
                (- 2 ^ 31 <= z < 2 ^ 31)%Z).
  { destruct (Ascii.eqb c "-"); simpl negb; simpl andb.
    - destruct (Z.gtb_spec un 2147483648); [discriminate|]. intros [= <-]. lia.
    - destruct (Z.geb_spec un 2147483648); [discriminate|]. intros [= <-]. lia. }
  destruct err as [[|]|]; [discriminate|exact Hgo..].
Qed.

Lemma int32_small z : (- 2 ^ 31 <= z < 2 ^ 31)%Z -> int32 z = z.
Proof. intros H. unfold int32. rewrite Z.mod_small; lia. Qed.

Lemma int32_bounds z : (- 2 ^ 31 <= int32 z < 2 ^ 31)%Z.
Proof.
  unfold int32. pose proof (Z.mod_pos_bound (z + 2 ^ 31) (2 ^ 32) ltac:(lia)). lia.
Qed.

(** ** C5: the time zone *)

(** With a sysprep identity and enough slots, everything before the
    submission succeeds unless [-tz] is given and does not parse. *)
Lemma applySettings_windows_Ok cmd spec y :
  Spec.Identity spec = SysprepIdentity y ->
  (customize.tz cmd = "" \/ exists tz, ParseInt (customize.tz cmd) 16 32 = inl tz) ->
  exists spec1, outcome (applySettings (isSysprep spec) cmd spec) = Ok spec1.
Proof.
  intros Hid Htz. destruct spec as [id g nics key]; simpl in Hid; subst id.
  unfold isSysprep. simpl. rewrite applySettings_windows. cbv zeta.
  destruct Htz as [Htz|[tz Htz]].
  - apply negb_eqb_false in Htz. rewrite Htz. by eexists.
  - rewrite Htz. destruct (negb _); by eexists.
Qed.

(** C5 as stated fails: [-tz ZZZ] with three [-ip] values against the
    stored specification ["windows"], a sysprep identity with two adapters,
    does not parse, and yet the run returns the count error of line 153,
    which comes before the parsing of line 202, not a parse error. *)
Lemma C5_counterexample :
  outcome (resolveSpec sampleWorld badTzThreeIPs (Arg ["windows"] 0)) = Ok windowsTemplate /\
  isSysprep windowsTemplate = true /\
  customize.tz badTzThreeIPs <> "" /\
  ParseInt (customize.tz badTzThreeIPs) 16 32 = inr (mkNumError "ParseInt" "ZZZ" ErrSyntax) /\
  Run sampleWorld badTzThreeIPs ["windows"] =
    (Failed (Errorf "%d -ip specified, spec %q has %d"
               [ArgInt 3; ArgString "windows"; ArgInt 2]),
     [CallExists "windows"; CallGet "windows"]) /\
  (forall err,
     outcome (Run sampleWorld badTzThreeIPs ["windows"]) <>
     Failed (Errorf "converting -tz=%q: %s"
               [ArgString (customize.tz badTzThreeIPs); ArgError err])).
Proof. repeat split; discriminate. Qed.

(** C5, amended.  Let the specification be resolved and [-tz] be non-empty.
    With a sysprep identity the value goes through [ParseInt(tz, 16, 32)].
    When that fails, the error names the value, nothing is submitted, and,
    the count check being passed, the run ends with the error
    ["converting -tz=%q: %s"] formatted with the value and the parse error.
    When it succeeds with [z], [z] fits in 32 bits, the run submits (the
    count check being passed), and what it submits has a sysprep identity
    whose time zone index is [z].
    With a Linux-prep identity the step stores the value as it is in the
    time zone field and changes nothing else, whatever [ParseInt] would say
    of it, and what a run submits has that value in that field. *)
Theorem C5_timezone w cmd args vm spec0 :
  World.VirtualMachine w = Value (Some vm) ->
  outcome (resolveSpec w cmd (Arg args 0)) = Ok spec0 ->
  customize.tz cmd <> "" ->
  (isSysprep spec0 = true ->
     (forall err, ParseInt (customize.tz cmd) 16 32 = inr err ->
        Num err = customize.tz cmd /\
        submissions (trace (Run w cmd args)) = [] /\
        (length (customize.ip cmd) <= length (Spec.NicSettingMap spec0) ->
         outcome (Run w cmd args) =
           Failed (Errorf "converting -tz=%q: %s"
                     [ArgString (customize.tz cmd); ArgError err]))) /\
     (forall z, ParseInt (customize.tz cmd) 16 32 = inl z ->
        (- 2 ^ 31 <= z < 2 ^ 31)%Z /\
        (length (customize.ip cmd) <= length (Spec.NicSettingMap spec0) ->
         exists spec', In (CallCustomize spec') (trace (Run w cmd args))) /\
        (forall spec', In (CallCustomize spec') (trace (Run w cmd args)) ->
           exists y,
             Spec.Identity spec' = SysprepIdentity y /\
             GuiUnattended.TimeZone (Sysprep.GuiUnattended y) = z))) /\
  (forall l, Spec.Identity spec0 = LinuxPrepIdentity l ->
     setTimeZone false cmd spec0 =
       ret (Spec.set_Identity
              (LinuxPrepIdentity (LinuxPrep.set_TimeZone (customize.tz cmd) l)) spec0) /\
     LinuxPrep.TimeZone (LinuxPrep.set_TimeZone (customize.tz cmd) l) = customize.tz cmd /\
     (forall spec', In (CallCustomize spec') (trace (Run w cmd args)) ->
        exists l',
          Spec.Identity spec' = LinuxPrepIdentity l' /\
          LinuxPrep.TimeZone l' = customize.tz cmd)).
Proof.
  intros Hvm Hres Htz. pose proof (proj2 (negb_eqb_true _) Htz) as Hb.
  assert (Hres' : resolveSpec w cmd (Arg args 0) =
                  (Ok spec0, trace (resolveSpec w cmd (Arg args 0)))).
  { by rewrite <- Hres, <- M_eta. }
  split.
  - intros HW.
    destruct (identity_cases spec0) as [(l & _ & HW') | [(y & Hid & _) | [HW' _]]];
      [congruence| |congruence].
    split.
    + intros err Herr. split; [apply (ParseInt_error _ _ _ _ Herr)|]. split.
      * apply submissions_nil_iff. intros spec' Hin.
        destruct (Run_submitted _ _ _ _ _ Hres Hin) as (_ & _ & _ & _ & spec1 & Hset & _).
        destruct (settings_windows_inv _ _ _ _ Hid Hset) as (y1 & _ & _ & _ & _ & _ & Hz).
        rewrite Hb in Hz. destruct Hz as (z & Hz & _). congruence.
      * intros Hle. apply Nat.ltb_ge in Hle.
        rewrite (Run_with_vm _ _ _ _ Hvm), (prepare_resolved _ _ _ _ _ Hres'), Hle.
        unfold applyFlags. rewrite HW.
        destruct spec0 as [id g nics key]; simpl in Hid; subst id.
        rewrite applySettings_windows. cbv zeta. by rewrite Hb, Herr.
    + intros z Hz. pose proof (ParseInt_16_32_range _ _ Hz) as Hrange.
      split; [done|]. split.
      * intros Hle.
        destruct (applySettings_windows_Ok cmd spec0 y Hid) as [spec1 Hset]; [eauto|].
        apply (Run_submits _ _ _ _ _ _ Hvm Hres Hle Hset).
      * intros spec' Hin.
        destruct (Run_submitted _ _ _ _ _ Hres Hin)
          as (_ & _ & _ & _ & spec1 & Hset & -> & _).
        destruct (settings_windows_inv _ _ _ _ Hid Hset)
          as (y1 & -> & _ & _ & _ & _ & Hz1).
        rewrite Hb in Hz1. destruct Hz1 as (z' & Hz' & Hz1).
        exists y1. split; [done|]. rewrite Hz in Hz'. injection Hz' as <-.
        rewrite Hz1. by apply int32_small.
  - intros l Hid. split; [|split; [done|]].
    + unfold setTimeZone, viaLinprep. by rewrite Hb, Hid.
    + intros spec' Hin.
      destruct (Run_submitted _ _ _ _ _ Hres Hin)
        as (_ & _ & _ & _ & spec1 & Hset & -> & _).
      destruct (settings_linux_inv _ _ _ _ Hid Hset) as (_ & l1 & -> & _ & _ & Hz & _).
      exists l1. split; [done|]. by rewrite Hz, Hb.
Qed.

(** C5 at work, on fresh specifications: [-tz ZZZ -type Windows] is
    refused; [-tz 23 -type Windows] submits the index 35; [-tz 23] with the
    Linux type submits the string as it is. *)
Lemma C5_timezone_witness :
  (submissions (trace (Run sampleWorld badTz [])) = [] /\
   outcome (Run sampleWorld badTz []) =
     Failed (Errorf "converting -tz=%q: %s"
               [ArgString "ZZZ"; ArgError (mkNumError "ParseInt" "ZZZ" ErrSyntax)])) /\
  (exists spec' y,
     In (CallCustomize spec') (trace (Run sampleWorld (sampleFlags "Windows" 0) [])) /\
     Spec.Identity spec' = SysprepIdentity y /\
     GuiUnattended.TimeZone (Sysprep.GuiUnattended y) = 35%Z) /\
  (exists spec' l,
     In (CallCustomize spec') (trace (Run sampleWorld (sampleFlags "Linux" 0) [])) /\
     Spec.Identity spec' = LinuxPrepIdentity l /\
     LinuxPrep.TimeZone l = "23").
Proof.
  split; [|split].
  - destruct (C5_timezone sampleWorld badTz [] "vm-42" _ eq_refl eq_refl)
      as [Hwin _]; [discriminate|].
    destruct (Hwin eq_refl) as [Hbad _].
    destruct (Hbad (mkNumError "ParseInt" "ZZZ" ErrSyntax) eq_refl) as (_ & Hsub & Hout).
    split; [exact Hsub|]. apply Hout. simpl. lia.
  - destruct (C5_timezone sampleWorld (sampleFlags "Windows" 0) [] "vm-42" _ eq_refl eq_refl)
      as [Hwin _]; [discriminate|].
    destruct (Hwin eq_refl) as [_ Hgood].
    destruct (Hgood 35%Z eq_refl) as (_ & Hsub & Hval).
    destruct Hsub as [spec' Hin]; [simpl; lia|].
    destruct (Hval _ Hin) as (y & Hid & Hz).
    exists spec', y. split; [exact Hin|]. split; [exact Hid|exact Hz].
  - destruct (C5_timezone sampleWorld (sampleFlags "Linux" 0) [] "vm-42" _ eq_refl eq_refl)
      as [_ Hlinux]; [discriminate|].
    eassert (Hin : In (CallCustomize _)
                     (trace (Run sampleWorld (sampleFlags "Linux" 0) []))).
    { vm_compute. right. right. left. reflexivity. }
    destruct (Hlinux _ eq_refl) as (_ & _ & Hval).
    destruct (Hval _ Hin) as (l & Hid & Hz).
    eexists. exists l. split; [exact Hin|]. split; [exact Hid|exact Hz].
Defined.

(** ** C4: [-auto-login] *)




(** * More of [Run] *)

(** ** The loop against the number of slots *)

Lemma nicLoop_overrun isWindows cmd ips : forall i nics,
  i <= length nics -> length nics < i + length ips ->
  outcome (nicLoop isWindows cmd i ips nics) =
  Panicked (IndexOutOfRange (length nics) (length nics)).
Proof.
  induction ips as [|ip rest IH]; intros i nics Hi Hlen; simpl in Hlen; [lia|].
  destruct (nics !! i) as [nic|] eqn:Hnic.
  - rewrite (nicLoop_cons _ _ _ _ _ _ _ Hnic). unfold outcome at 1. simpl fst.
    apply lookup_lt_Some in Hnic.
    rewrite IH; rewrite ?length_insert; [done|lia..].
  - simpl. rewrite Hnic. apply lookup_ge_None in Hnic.
    by replace i with (length nics) by lia.
Qed.

(** X1.  The per-adapter loop, taken alone, is safe exactly when there are
    at least as many slots as [-ip] values: then it ends normally and keeps
    the number of slots; with fewer slots it panics with an index out of
    range at the first index past the last slot, which is the number of
    slots.  This is what the count check before it rules out. *)
Theorem X1_loop_bounds isWindows cmd nics :
  (length (customize.ip cmd) <= length nics ->
     exists nics',
       outcome (nicLoop isWindows cmd 0 (customize.ip cmd) nics) = Ok nics' /\
       length nics' = length nics) /\
  (length nics < length (customize.ip cmd) ->
     outcome (nicLoop isWindows cmd 0 (customize.ip cmd) nics) =
       Panicked (IndexOutOfRange (length nics) (length nics))).
Proof.
  split.
  - intros Hle.
    destruct (nicLoop_ok isWindows cmd (customize.ip cmd) 0 nics) as (nics' & Hrun & Hlen & _);
      [simpl; lia|].
    exists nics'. by rewrite Hrun.
  - intros Hlt. apply nicLoop_overrun; simpl; lia.
Qed.

(** ** The shape of a trace *)

(** Resolving the specification never panics; without a NAME it calls
    nothing, with a NAME it asks for existence first and fetches only after
    the answer [true]. *)
Lemma resolveSpec_shape w cmd name :
  (forall p, outcome (resolveSpec w cmd name) <> Panicked p) /\
  (trace (resolveSpec w cmd name) = [] /\
   (name = "" \/ forall spec0, outcome (resolveSpec w cmd name) <> Ok spec0) \/
   trace (resolveSpec w cmd name) = [CallExists name] /\ name <> "" /\
   (forall spec0, outcome (resolveSpec w cmd name) <> Ok spec0) \/
   trace (resolveSpec w cmd name) = [CallExists name; CallGet name] /\ name <> "" /\
   World.DoesCustomizationSpecExist w name = Value true).
Proof.
  unfold resolveSpec, newSpec, fetchSpec, call.
  destruct (String.eqb_spec name "") as [->|Hne].
  - split; [|left; split; [|by left]];
      destruct (String.eqb _ "Linux"); try done; by destruct (String.eqb _ "Windows").
  - destruct (World.DoesCustomizationSpecExist w name) as [[|]|e]; simpl.
    + destruct (World.GetCustomizationSpec w name) as [item|e]; simpl;
        (split; [done|]); right; right; done.
    + split; [done|]. right; left. done.
    + split; [done|]. right; left. done.
Qed.

(** The events of the flags: none when the settings fail, one adapter
    mutation per [-ip] value, in order, when they succeed. *)
Lemma applyFlags_shape cmd spec :
  length (customize.ip cmd) <= length (Spec.NicSettingMap spec) ->
  (trace (applyFlags cmd spec) = [] /\
   forall spec', outcome (applyFlags cmd spec) <> Ok spec') \/
  (trace (applyFlags cmd spec) = SetNic <$> seq 0 (length (customize.ip cmd)) /\
   exists spec', outcome (applyFlags cmd spec) = Ok spec').
Proof.
  intros Hle.
  destruct (outcome (applySettings (isSysprep spec) cmd spec)) as [spec1|e|p] eqn:Hset.
  - right. destruct (applyFlags_Ok cmd spec spec1 Hle Hset) as (nics' & Hrun & _).
    rewrite Hrun. eauto.
  - left. apply applyFlags_abort. rewrite Hset. congruence.
  - left. apply applyFlags_abort. rewrite Hset. congruence.
Qed.

Lemma prepare_shape w cmd name :
  exists mgr k,
    trace (prepare w cmd name) = mgr ++ (SetNic <$> seq 0 k) /\
    (mgr = [] \/ mgr = [CallExists name] \/
     mgr = [CallExists name; CallGet name] /\
     World.DoesCustomizationSpecExist w name = Value true) /\
    (name = "" -> mgr = []) /\
    (k = 0 \/ k = length (customize.ip cmd)) /\
    (forall spec', outcome (prepare w cmd name) = Ok spec' ->
       k = length (customize.ip cmd)).
Proof.
  destruct (resolveSpec_shape w cmd name) as [_ Hshape].
  assert (Hmgr : (trace (resolveSpec w cmd name) = [] \/
                  trace (resolveSpec w cmd name) = [CallExists name] \/
                  trace (resolveSpec w cmd name) = [CallExists name; CallGet name] /\
                  World.DoesCustomizationSpecExist w name = Value true) /\
                 (name = "" -> trace (resolveSpec w cmd name) = [])).
  { destruct Hshape as [[Ht _]|[(Ht & Hne & _)|(Ht & Hne & Hex)]]; rewrite Ht;
      (split; [tauto|]); try done; by intros ->. }
  destruct Hmgr as [Hmgr Hnone].
  destruct (resolveSpec w cmd name) as [[spec0|e|p] t0] eqn:Hres; simpl in Hmgr, Hnone.
  - rewrite (prepare_resolved _ _ _ _ _ Hres).
    destruct (Nat.ltb_spec (length (Spec.NicSettingMap spec0)) (length (customize.ip cmd)))
      as [Hlt|Hle].
    + exists t0, 0. simpl. rewrite app_nil_r. repeat (split; [tauto|]). discriminate.
    + destruct (applyFlags_shape cmd spec0 Hle) as [[Ht Hno]|[Ht _]]; simpl; rewrite Ht.
      * exists t0, 0. simpl. repeat (split; [tauto|]). intros spec' Hok.
        by destruct (Hno spec').
      * exists t0, (length (customize.ip cmd)). repeat (split; [tauto|]). done.
  - unfold prepare. rewrite Hres. exists t0, 0. simpl. rewrite app_nil_r.
    repeat (split; [tauto|]). discriminate.
  - unfold prepare. rewrite Hres. exists t0, 0. simpl. rewrite app_nil_r.
    repeat (split; [tauto|]). discriminate.
Qed.

(** X2.  The trace of every run has one shape: first the calls to the
    manager (none without a NAME; the existence check; the existence check
    and then the fetch, which happens only after the answer [true]), then
    the adapter mutations, none or one for each [-ip] value at the indices
    0, 1, ... in order, and last the submission: nothing, or [Customize]
    alone when it is refused, or [Customize] followed by the wait on the
    very task it returned.  A submission comes only after all the adapter
    mutations. *)
Theorem X2_trace_shape w cmd args :
  exists mgr k sub,
    trace (Run w cmd args) = mgr ++ (SetNic <$> seq 0 k) ++ sub /\
    (mgr = [] \/ mgr = [CallExists (Arg args 0)] \/
     mgr = [CallExists (Arg args 0); CallGet (Arg args 0)] /\
     World.DoesCustomizationSpecExist w (Arg args 0) = Value true) /\
    (Arg args 0 = "" -> mgr = []) /\
    (k = 0 \/ k = length (customize.ip cmd)) /\
    (sub = [] \/
     exists spec',
       k = length (customize.ip cmd) /\
       ((exists e, World.Customize w spec' = Error e /\ sub = [CallCustomize spec']) \/
        (exists task, World.Customize w spec' = Value task /\
           sub = [CallCustomize spec'; CallWait task]))).
Proof.
  unfold Run. destruct (World.VirtualMachine w) as [[vm|]|e];
    try (exists [], 0, []; simpl; tauto).
  destruct (prepare_shape w cmd (Arg args 0)) as (mgr & k & Ht & Hmgr & Hnone & Hk & Hok).
  rewrite trace_bind, Ht, <- app_assoc.
  destruct (outcome (prepare w cmd (Arg args 0))) as [spec'|e|p] eqn:Hprep.
  - exists mgr, k, (trace (submit w spec')).
    split; [done|]. split; [done|]. split; [done|]. split; [done|].
    right. exists spec'. split; [exact (Hok _ eq_refl)|].
    rewrite submit_trace. destruct (World.Customize w spec') as [task|e]; eauto.
  - exists mgr, k, []. tauto.
  - exists mgr, k, []. tauto.
Qed.

(** ** After the submission *)

(** X3.  Once a run has submitted a specification, its result is the
    answer of the collaborators, unchanged: the error of [Customize] if it
    refuses, else the error of the wait on the returned task, else success.
    So a run succeeds exactly when it has submitted a specification,
    [Customize] has returned a task, and the wait on that task has reported
    no error; and a run waits only on a task that [Customize] returned for
    the specification it submitted. *)
Theorem X3_submission_outcome w cmd args :
  (forall spec', In (CallCustomize spec') (trace (Run w cmd args)) ->
     outcome (Run w cmd args) =
       match World.Customize w spec' with
       | Error e => Failed e
       | Value task =>
           match World.Wait w task with
           | Some e => Failed e
           | None => Ok tt
           end
       end) /\
  (outcome (Run w cmd args) = Ok tt <->
     exists spec' task,
       In (CallCustomize spec') (trace (Run w cmd args)) /\
       World.Customize w spec' = Value task /\ World.Wait w task = None) /\
  (forall task, In (CallWait task) (trace (Run w cmd args)) ->
     exists spec',
       In (CallCustomize spec') (trace (Run w cmd args)) /\
       World.Customize w spec' = Value task).
Proof.
  assert (Hout : forall spec', In (CallCustomize spec') (trace (Run w cmd args)) ->
            outcome (Run w cmd args) =
            match World.Customize w spec' with
            | Error e => Failed e
            | Value task =>
                match World.Wait w task with Some e => Failed e | None => Ok tt end
            end).
  { intros spec' Hin. apply Run_submission_iff in Hin as [[vm Hvm] Hprep].
    rewrite (Run_with_vm _ _ _ _ Hvm), outcome_bind, Hprep.
    unfold submit, call. destruct (World.Customize w spec') as [task|e]; simpl; [|done].
    by destruct (World.Wait w task). }
  split; [exact Hout|]. split; [split|].
  - intros Hok. unfold Run in Hok.
    destruct (World.VirtualMachine w) as [[vm|]|e] eqn:Hvm; try discriminate.
    rewrite outcome_bind in Hok.
    destruct (outcome (prepare w cmd (Arg args 0))) as [spec'|e|p] eqn:Hprep;
      try discriminate.
    assert (Hin : In (CallCustomize spec') (trace (Run w cmd args))).
    { apply Run_submission_iff. eauto. }
    pose proof (Hout _ Hin) as Hout'. rewrite (Run_with_vm _ _ _ _ Hvm) in Hout'.
    rewrite outcome_bind, Hprep in Hout'. rewrite Hok in Hout'.
    destruct (World.Customize w spec') as [task|e] eqn:Hc; [|discriminate].
    destruct (World.Wait w task) eqn:Hwait; [discriminate|].
    by exists spec', task.
  - intros (spec' & task & Hin & Hc & Hw). by rewrite (Hout _ Hin), Hc, Hw.
  - intros task Hin. unfold Run in Hin.
    destruct (World.VirtualMachine w) as [[vm|]|e] eqn:Hvm; try by destruct Hin.
    rewrite trace_bind in Hin. apply in_app_or in Hin as [Hin|Hin].
    + destruct (prepare_shape w cmd (Arg args 0)) as (mgr & k & Ht & Hmgr & _).
      rewrite Ht in Hin. apply in_app_or in Hin as [Hin|Hin].
      * destruct Hmgr as [->|[->|[-> _]]]; simpl in Hin; intuition discriminate.
      * apply list_elem_of_In, list_elem_of_fmap in Hin as (i & [=] & _).
    + destruct (outcome (prepare w cmd (Arg args 0))) as [spec'|e|p] eqn:Hprep;
        try by destruct Hin.
      rewrite submit_trace in Hin. destruct Hin as [[=]|Hin].
      destruct (World.Customize w spec') as [task'|e] eqn:Hc; [|by destruct Hin].
      destruct Hin as [[= ->]|[]]. exists spec'. split; [|done].
      apply Run_submission_iff. eauto.
Qed.

(** ** When a run panics *)

(** A fresh specification has one of the two identities [Run] knows. *)
Lemma newSpec_identity cmd spec :
  outcome (newSpec cmd) = Ok spec -> isLinuxPrep spec = true \/ isSysprep spec = true.
Proof.
  unfold newSpec. destruct (String.eqb _ "Linux"); [intros [= <-]; by left|].
  destruct (String.eqb _ "Windows"); [intros [= <-]; by right|discriminate].
Qed.

(** The settings panic only through the nil Linux-prep pointer. *)
Lemma applySettings_panic cmd spec p :
  outcome (applySettings (isSysprep spec) cmd spec) = Panicked p ->
  p = NilPointerDereference /\ isSysprep spec = false /\ isLinuxPrep spec = false /\
  (customize.domain cmd <> "" \/ PrefixName.Base (customize.prefix cmd) <> "" \/
   FixedName.Name (customize.host cmd) <> "" \/
   (customize.tz cmd <> "" /\ customize.alc cmd = 0%Z)).
Proof.
  destruct (identity_cases spec) as [(l & Hid & HW) | [(y & Hid & HW) | [HW HL]]];
    rewrite HW.
  - destruct spec as [id g nics key]; simpl in Hid; subst id.
    rewrite applySettings_linux. by destruct (negb _).
  - destruct spec as [id g nics key]; simpl in Hid; subst id.
    rewrite applySettings_windows. cbv zeta.
    destruct (negb (String.eqb _ _)); [destruct (ParseInt _ _ _)|]; discriminate.
  - rewrite (applySettings_other _ _ HW HL).
    destruct (String.eqb_spec (customize.domain cmd) ""); simpl;
      [|intros [= <-]; tauto].
    destruct (String.eqb_spec (PrefixName.Base (customize.prefix cmd)) ""); simpl;
      [|intros [= <-]; tauto].
    destruct (String.eqb_spec (FixedName.Name (customize.host cmd)) ""); simpl;
      [|intros [= <-]; tauto].
    destruct (Z.eqb_spec (customize.alc cmd) 0); simpl; [|discriminate].
    destruct (String.eqb_spec (customize.tz cmd) ""); simpl; [discriminate|].
    intros [= <-]. tauto.
Qed.

(** X4.  A run panics only in one way: by a write through the nil
    Linux-prep pointer.  It then has a NAME, the specification stored under
    it has an identity that is neither the sysprep nor the Linux-prep
    variant, the count check was passed, and one of [-domain], [-prefix],
    [-name] was given, or [-tz] without [-auto-login].  In particular a run
    never indexes the adapter mappings out of range, and a run on a fresh
    specification never panics. *)
Theorem X4_panic_only_nil w cmd args p :
  outcome (Run w cmd args) = Panicked p ->
  p = NilPointerDereference /\
  Arg args 0 <> "" /\
  exists spec0,
    outcome (resolveSpec w cmd (Arg args 0)) = Ok spec0 /\
    isSysprep spec0 = false /\ isLinuxPrep spec0 = false /\
    length (customize.ip cmd) <= length (Spec.NicSettingMap spec0) /\
    (customize.domain cmd <> "" \/ PrefixName.Base (customize.prefix cmd) <> "" \/
     FixedName.Name (customize.host cmd) <> "" \/
     (customize.tz cmd <> "" /\ customize.alc cmd = 0%Z)).
Proof.
  unfold Run. destruct (World.VirtualMachine w) as [[vm|]|e]; try discriminate.
  rewrite outcome_bind.
  destruct (outcome (prepare w cmd (Arg args 0))) as [spec'|e|q] eqn:Hprep;
    [|discriminate|].
  { unfold submit, call. destruct (World.Customize w spec') as [task|e]; simpl;
      [|discriminate]. by destruct (World.Wait w task). }
  intros [= ->].
  destruct (resolveSpec_shape w cmd (Arg args 0)) as [Hnopanic _].
  destruct (resolveSpec w cmd (Arg args 0)) as [[spec0|e|q] t0] eqn:Hres.
  - rewrite (prepare_resolved _ _ _ _ _ Hres) in Hprep.
    destruct (Nat.ltb_spec (length (Spec.NicSettingMap spec0)) (length (customize.ip cmd)))
      as [Hlt|Hle]; [discriminate|].
    simpl in Hprep. unfold applyFlags in Hprep. rewrite outcome_bind in Hprep.
    destruct (outcome (applySettings (isSysprep spec0) cmd spec0)) as [spec1|e|q] eqn:Hset;
      [|discriminate|].
    + destruct (applyFlags_Ok cmd spec0 spec1 Hle Hset) as (nics' & Hrun & _).
      unfold applyFlags in Hrun. apply (f_equal outcome) in Hrun.
      rewrite outcome_bind, Hset in Hrun. simpl in Hrun. congruence.
    + injection Hprep as ->.
      destruct (applySettings_panic _ _ _ Hset) as (-> & HW & HL & Hflags).
      split; [done|]. split.
      * intros Hname. unfold resolveSpec in Hres. rewrite Hname in Hres. simpl in Hres.
        destruct (newSpec_identity cmd spec0) as [?|?]; [by rewrite Hres|congruence..].
      * exists spec0. by rewrite ?Hres.
  - unfold prepare in Hprep. rewrite Hres in Hprep. discriminate.
  - by destruct (Hnopanic q).
Qed.

(** X4 at work: the panic of [-domain example.org] against the template
    ["text"] is of that kind. *)
Lemma X4_panic_only_nil_witness :
  Arg ["text"] 0 <> "" /\
  exists spec0,
    outcome (resolveSpec sampleWorld domainFlags (Arg ["text"] 0)) = Ok spec0 /\
    isSysprep spec0 = false /\ isLinuxPrep spec0 = false.
Proof.
  destruct (X4_panic_only_nil sampleWorld domainFlags ["text"] NilPointerDereference eq_refl)
    as (_ & Hname & spec0 & Hres & HW & HL & _).
  split; [exact Hname|]. exists spec0. split; [exact Hres|]. split; [exact HW|exact HL].
Defined.

(** ** A run without flags *)

(** Without any of the flags that [Run] acts on, the flags change nothing,
    whatever the identity. *)
Lemma applyFlags_nothing cmd spec :
  customize.alc cmd = 0%Z -> PrefixName.Base (customize.prefix cmd) = "" ->
  customize.tz cmd = "" -> customize.domain cmd = "" ->
  FixedName.Name (customize.host cmd) = "" -> customize.ip cmd = [] ->
  customize.dnsserver cmd = [] \/ isSysprep spec = true ->
  applyFlags cmd spec = (Ok spec, []).
Proof.
  destruct cmd as [alc [pfx] tz dom [h] mac ip gw nm dns kind]. simpl.
  intros -> -> -> -> -> -> Hdns. unfold applyFlags.
  assert (Hset : applySettings (isSysprep spec)
                   (customize.mk 0 (PrefixName.mk "") "" "" (FixedName.mk "")
                      mac [] gw nm dns kind) spec = (Ok spec, [])).
  { destruct (identity_cases spec) as [(l & Hid & HW) | [(y & Hid & HW) | [HW HL]]];
      rewrite HW in *.
    - destruct Hdns as [->|?]; [|done].
      destruct spec as [id [sfx srv] nics key]; simpl in Hid; subst id.
      rewrite applySettings_linux. by destruct l.
    - destruct spec as [id g nics key]; simpl in Hid; subst id.
      rewrite applySettings_windows. by destruct y as [[] [] []].
    - destruct Hdns as [->|?]; [|done].
      rewrite (applySettings_other _ _ HW HL). by destruct spec as [id [sfx srv] nics key]. }
  rewrite Hset, bind_Ok_nil. unfold setNics. simpl. by destruct spec.
Qed.

(** X5.  A run in which none of [-auto-login], [-prefix], [-tz], [-domain],
    [-name] and [-ip] is given, and [-dns-server] is not given or the
    identity is the sysprep variant, submits the resolved specification as
    it is, for any identity, and writes no adapter.  In particular [-mac],
    [-netmask] and [-gateway] without [-ip] have no effect, nor has
    [-dns-server] without [-ip] on a sysprep identity. *)
Theorem X5_no_flags w cmd args vm spec0 :
  World.VirtualMachine w = Value (Some vm) ->
  outcome (resolveSpec w cmd (Arg args 0)) = Ok spec0 ->
  customize.alc cmd = 0%Z -> PrefixName.Base (customize.prefix cmd) = "" ->
  customize.tz cmd = "" -> customize.domain cmd = "" ->
  FixedName.Name (customize.host cmd) = "" -> customize.ip cmd = [] ->
  customize.dnsserver cmd = [] \/ isSysprep spec0 = true ->
  submissions (trace (Run w cmd args)) = [CallCustomize spec0] /\
  mutations (trace (Run w cmd args)) = 0.
Proof.
  intros Hvm Hres Halc Hp Htz Hd Hh Hip Hdns.
  assert (Hres' : resolveSpec w cmd (Arg args 0) =
                  (Ok spec0, trace (resolveSpec w cmd (Arg args 0)))).
  { by rewrite <- Hres, <- M_eta. }
  destruct (resolveSpec_quiet w cmd (Arg args 0)) as [Hmut Hsub].
  assert (Hprep : prepare w cmd (Arg args 0) =
                  (Ok spec0, trace (resolveSpec w cmd (Arg args 0)))).
  { rewrite (prepare_resolved _ _ _ _ _ Hres').
    rewrite (applyFlags_nothing cmd spec0 Halc Hp Htz Hd Hh Hip Hdns), Hip.
    simpl. by rewrite app_nil_r. }
  rewrite (Run_with_vm _ _ _ _ Hvm), Hprep, bind_Ok, submit_trace.
  unfold trace at 1 3. simpl snd.
  rewrite submissions_app, mutations_app, Hsub, Hmut.
  unfold submissions, mutations. simpl.
  by destruct (World.Customize w spec0).
Qed.

(** X5 at work: [-mac], [-netmask] and [-gateway] without [-ip], against the
    template ["linux"]. *)
Lemma X5_no_flags_witness :
  submissions (trace (Run sampleWorld noIPFlags ["linux"])) = [CallCustomize linuxTemplate] /\
  mutations (trace (Run sampleWorld noIPFlags ["linux"])) = 0.
Proof.
  apply (X5_no_flags sampleWorld noIPFlags ["linux"] "vm-42" linuxTemplate);
    try reflexivity. by left.
Defined.

(** ** Entries past the number of [-ip] values *)

Lemma take_guard (l : list string) (n i : nat) :
  i < n ->
  (i <? length (take n l))%nat = (i <? length l)%nat /\
  nth i (take n l) "" = nth i l "".
Proof.
  intros Hi. split.
  - rewrite length_take.
    destruct (Nat.ltb_spec i (length l)), (Nat.ltb_spec i (n `min` length l)); lia.
  - by rewrite !nth_lookup, lookup_take_lt.
Qed.

Lemma setNic_withoutSurplus isWindows cmd i ip nic :
  i < length (customize.ip cmd) ->
  setNic isWindows (withoutSurplus cmd) i ip nic = setNic isWindows cmd i ip nic.
Proof.
  intros Hi. unfold setNic, withoutSurplus. simpl.
  destruct (take_guard (customize.netmask cmd) _ _ Hi) as [-> ->].
  destruct (take_guard (customize.mac cmd) _ _ Hi) as [-> ->].
  destruct (take_guard (customize.gateway cmd) _ _ Hi) as [-> ->].
  reflexivity.
Qed.

Lemma nicLoop_withoutSurplus isWindows cmd ips : forall i nics,
  i + length ips <= length (customize.ip cmd) ->
  nicLoop isWindows (withoutSurplus cmd) i ips nics = nicLoop isWindows cmd i ips nics.
Proof.
  induction ips as [|ip rest IH]; intros i nics Hlen; [reflexivity|].
  simpl in *. destruct (nics !! i) as [nic|]; [|reflexivity].
  rewrite IH by lia. by rewrite setNic_withoutSurplus by lia.
Qed.

(** X6.  The entries of [-mac], [-netmask] and [-gateway] past the number
    of [-ip] values are never read: the run is the same, result and trace
    and so the submitted specification, when these lists are cut to the
    length of the [-ip] list. *)
Theorem X6_surplus_ignored w cmd args :
  Run w (withoutSurplus cmd) args = Run w cmd args.
Proof.
  unfold Run. destruct (World.VirtualMachine w) as [[vm|]|e]; try reflexivity.
  f_equal. unfold prepare.
  change (resolveSpec w (withoutSurplus cmd) (Arg args 0))
    with (resolveSpec w cmd (Arg args 0)).
  apply bind_ext. intros spec0.
  change (checkIPs (withoutSurplus cmd) (Arg args 0) spec0)
    with (checkIPs cmd (Arg args 0) spec0).
  apply bind_ext. intros _. unfold applyFlags.
  change (applySettings (isSysprep spec0) (withoutSurplus cmd) spec0)
    with (applySettings (isSysprep spec0) cmd spec0).
  apply bind_ext. intros spec1. unfold setNics.
  change (customize.ip (withoutSurplus cmd)) with (customize.ip cmd).
  by rewrite nicLoop_withoutSurplus.
Qed.

(** ** [-type] with a NAME *)

Lemma nicLoop_with_kind isWindows cmd k ips : forall i nics,
  nicLoop isWindows (with_kind k cmd) i ips nics = nicLoop isWindows cmd i ips nics.
Proof.
  induction ips as [|ip rest IH]; intros i nics; [reflexivity|].
  simpl. destruct (nics !! i) as [nic|]; [|reflexivity].
  rewrite IH. reflexivity.
Qed.

(** X7.  [-type] is read only to build a fresh specification: with a NAME
    argument the run is the same, result and trace, whatever the [-type]
    value, also one that is neither ["Linux"] nor ["Windows"]. *)
Theorem X7_type_ignored_with_name w cmd args k :
  Arg args 0 <> "" ->
  Run w (with_kind k cmd) args = Run w cmd args.
Proof.
  intros Hname. apply String.eqb_neq in Hname.
  unfold Run. destruct (World.VirtualMachine w) as [[vm|]|e]; try reflexivity.
  f_equal. unfold prepare.
  assert (Hres : resolveSpec w (with_kind k cmd) (Arg args 0) =
                 resolveSpec w cmd (Arg args 0)).
  { unfold resolveSpec. by rewrite Hname. }
  rewrite Hres. apply bind_ext. intros spec0.
  change (checkIPs (with_kind k cmd) (Arg args 0) spec0)
    with (checkIPs cmd (Arg args 0) spec0).
  apply bind_ext. intros _. unfold applyFlags.
  change (applySettings (isSysprep spec0) (with_kind k cmd) spec0)
    with (applySettings (isSysprep spec0) cmd spec0).
  apply bind_ext. intros spec1. unfold setNics.
  change (customize.ip (with_kind k cmd)) with (customize.ip cmd).
  by rewrite nicLoop_with_kind.
Qed.

(** X7 at work: [-type BSD] against the template ["linux"]. *)
Lemma X7_type_ignored_with_name_witness :
  Run sampleWorld (with_kind "BSD" dnsFlags) ["linux"] = Run sampleWorld dnsFlags ["linux"].
Proof. apply X7_type_ignored_with_name. discriminate. Defined.

(** ** The identity that is submitted *)

(** The fields of a sysprep identity no flag writes to. *)
Lemma settings_windows_frame cmd spec y spec1 :
  Spec.Identity spec = SysprepIdentity y ->
  outcome (applySettings (isSysprep spec) cmd spec) = Ok spec1 ->
  exists y1,
    Spec.Identity spec1 = SysprepIdentity y1 /\
    UserData.FullName (Sysprep.UserData y1) = UserData.FullName (Sysprep.UserData y) /\
    UserData.OrgName (Sysprep.UserData y1) = UserData.OrgName (Sysprep.UserData y) /\
    UserData.ProductId (Sysprep.UserData y1) = UserData.ProductId (Sysprep.UserData y) /\
    Identification.JoinWorkgroup (Sysprep.Identification y1) =
      Identification.JoinWorkgroup (Sysprep.Identification y) /\
    Identification.DomainAdmin (Sysprep.Identification y1) =
      Identification.DomainAdmin (Sysprep.Identification y).
Proof.
  intros Hid. destruct spec as [id g nics key]; simpl in Hid; subst id.
  unfold isSysprep. simpl. rewrite applySettings_windows. cbv zeta.
  destruct (negb (String.eqb (customize.tz cmd) ""));
    [destruct (ParseInt (customize.tz cmd) 16 32) as [tz|err]; [|discriminate]|];
    simpl; intros [= <-]; eexists; (split; [reflexivity|]); by simpl.
Qed.

(** X8.  In the specification a run submits, [-domain] is the DNS domain of
    a Linux-prep identity and the domain to join of a sysprep identity; an
    empty [-domain] leaves the resolved value.  For a sysprep identity the
    workgroup to join and the domain administrator stay as they were, also
    when a domain is set. *)
Theorem X8_domain w cmd args spec0 spec' :
  outcome (resolveSpec w cmd (Arg args 0)) = Ok spec0 ->
  In (CallCustomize spec') (trace (Run w cmd args)) ->
  (forall l, Spec.Identity spec0 = LinuxPrepIdentity l ->
     exists l',
       Spec.Identity spec' = LinuxPrepIdentity l' /\
       LinuxPrep.Domain l' =
         if String.eqb (customize.domain cmd) "" then LinuxPrep.Domain l
         else customize.domain cmd) /\
  (forall y, Spec.Identity spec0 = SysprepIdentity y ->
     exists y',
       Spec.Identity spec' = SysprepIdentity y' /\
       Identification.JoinDomain (Sysprep.Identification y') =
         (if String.eqb (customize.domain cmd) ""
          then Identification.JoinDomain (Sysprep.Identification y)
          else customize.domain cmd) /\
       Identification.JoinWorkgroup (Sysprep.Identification y') =
         Identification.JoinWorkgroup (Sysprep.Identification y) /\
       Identification.DomainAdmin (Sysprep.Identification y') =
         Identification.DomainAdmin (Sysprep.Identification y)).
Proof.
  intros Hres Hin.
  destruct (Run_submitted _ _ _ _ _ Hres Hin) as (_ & _ & _ & _ & spec1 & Hset & -> & _).
  split.
  - intros l Hid.
    destruct (settings_linux_inv _ _ _ _ Hid Hset) as (_ & l1 & -> & _ & Hd & _).
    exists l1. split; [done|]. rewrite Hd. by destruct (String.eqb _ _).
  - intros y Hid.
    destruct (settings_windows_inv _ _ _ _ Hid Hset) as (y1 & Hid1 & _ & Hd & _).
    destruct (settings_windows_frame _ _ _ _ Hid Hset)
      as (y1' & Hid1' & _ & _ & _ & Hwg & Hadm).
    rewrite Hid1 in Hid1'. injection Hid1' as <-.
    exists y1. split; [done|]. rewrite Hd. split; [by destruct (String.eqb _ _)|]. done.
Qed.

(** X8 at work: [-domain example.org] against the template ["linux"]. *)
Lemma X8_domain_witness :
  exists spec' l',
    In (CallCustomize spec') (trace (Run sampleWorld domainFlags ["linux"])) /\
    Spec.Identity spec' = LinuxPrepIdentity l' /\
    LinuxPrep.Domain l' = "example.org".
Proof.
  eassert (Hin : In (CallCustomize _) (trace (Run sampleWorld domainFlags ["linux"]))).
  { vm_compute. do 2 right. left. reflexivity. }
  destruct (X8_domain sampleWorld domainFlags ["linux"] linuxTemplate _ eq_refl Hin)
    as [Hlinux _].
  destruct (Hlinux _ eq_refl) as (l' & Hid & Hd).
  eexists. exists l'. split; [exact Hin|]. split; [exact Hid|exact Hd].
Defined.

(** X9.  In the specification a run submits, the host name field of the
    identity ([HostName] of the Linux prep, [ComputerName] of the sysprep
    user data) is the fixed name when [-name] is given, else the prefix
    generator when [-prefix] is given, else the generator of the resolved
    specification. *)
Theorem X9_host_name w cmd args spec0 spec' :
  outcome (resolveSpec w cmd (Arg args 0)) = Ok spec0 ->
  In (CallCustomize spec') (trace (Run w cmd args)) ->
  (forall l, Spec.Identity spec0 = LinuxPrepIdentity l ->
     exists l',
       Spec.Identity spec' = LinuxPrepIdentity l' /\
       LinuxPrep.HostName l' =
         if negb (String.eqb (FixedName.Name (customize.host cmd)) "")
         then FixedNameGen (customize.host cmd)
         else if negb (String.eqb (PrefixName.Base (customize.prefix cmd)) "")
              then PrefixNameGen (customize.prefix cmd)
              else LinuxPrep.HostName l) /\
  (forall y, Spec.Identity spec0 = SysprepIdentity y ->
     exists y',
       Spec.Identity spec' = SysprepIdentity y' /\
       UserData.ComputerName (Sysprep.UserData y') =
         if negb (String.eqb (FixedName.Name (customize.host cmd)) "")
         then FixedNameGen (customize.host cmd)
         else if negb (String.eqb (PrefixName.Base (customize.prefix cmd)) "")
              then PrefixNameGen (customize.prefix cmd)
              else UserData.ComputerName (Sysprep.UserData y)).
Proof.
  intros Hres Hin.
  destruct (Run_submitted _ _ _ _ _ Hres Hin) as (_ & _ & _ & _ & spec1 & Hset & -> & _).
  split.
  - intros l Hid.
    destruct (settings_linux_inv _ _ _ _ Hid Hset) as (_ & l1 & -> & Hn & _). eauto.
  - intros y Hid.
    destruct (settings_windows_inv _ _ _ _ Hid Hset) as (y1 & -> & Hn & _). eauto.
Qed.

(** X9 at work: [-prefix] alone. *)
Lemma X9_host_name_witness :
  exists spec' l',
    In (CallCustomize spec')
      (trace (Run sampleWorld
                (customize.set_prefix (PrefixName.mk "demo") domainFlags) ["linux"])) /\
    Spec.Identity spec' = LinuxPrepIdentity l' /\
    LinuxPrep.HostName l' = PrefixNameGen (PrefixName.mk "demo").
Proof.
  eassert (Hin : In (CallCustomize _)
                   (trace (Run sampleWorld
                             (customize.set_prefix (PrefixName.mk "demo") domainFlags)
                             ["linux"]))).
  { vm_compute. do 2 right. left. reflexivity. }
  destruct (X9_host_name sampleWorld (customize.set_prefix (PrefixName.mk "demo") domainFlags)
              ["linux"] linuxTemplate _ eq_refl Hin) as [Hlinux _].
  destruct (Hlinux _ eq_refl) as (l' & Hid & Hn).
  eexists. exists l'. split; [exact Hin|]. split; [exact Hid|exact Hn].
Defined.

(** X10.  What no flag reaches: in the specification a run submits, the
    encryption key, the DNS suffix list, the hardware-clock and script
    fields of a Linux prep, the full name, organisation and product id of
    the sysprep user data are those of the resolved specification, and an
    identity that is neither Linux prep nor sysprep is submitted as it was
    resolved. *)
Theorem X10_untouched w cmd args spec0 spec' :
  outcome (resolveSpec w cmd (Arg args 0)) = Ok spec0 ->
  In (CallCustomize spec') (trace (Run w cmd args)) ->
  Spec.EncryptionKey spec' = Spec.EncryptionKey spec0 /\
  GlobalIPSettings.DnsSuffixList (Spec.GlobalIPSettings spec') =
    GlobalIPSettings.DnsSuffixList (Spec.GlobalIPSettings spec0) /\
  (forall l, Spec.Identity spec0 = LinuxPrepIdentity l ->
     exists l',
       Spec.Identity spec' = LinuxPrepIdentity l' /\
       LinuxPrep.HwClockUTC l' = LinuxPrep.HwClockUTC l /\
       LinuxPrep.ScriptText l' = LinuxPrep.ScriptText l) /\
  (forall y, Spec.Identity spec0 = SysprepIdentity y ->
     exists y',
       Spec.Identity spec' = SysprepIdentity y' /\
       UserData.FullName (Sysprep.UserData y') = UserData.FullName (Sysprep.UserData y) /\
       UserData.OrgName (Sysprep.UserData y') = UserData.OrgName (Sysprep.UserData y) /\
       UserData.ProductId (Sysprep.UserData y') = UserData.ProductId (Sysprep.UserData y)) /\
  (isSysprep spec0 = false -> isLinuxPrep spec0 = false ->
     Spec.Identity spec' = Spec.Identity spec0).
Proof.
  intros Hres Hin.
  destruct (Run_submitted _ _ _ _ _ Hres Hin)
    as (_ & _ & _ & _ & spec1 & Hset & Hid' & Hg' & Hkey').
  destruct (applySettings_frame cmd spec0) as [_ Hframe].
  destruct (Hframe _ Hset) as (_ & Hkey & Hsuffix & _).
  rewrite Hid', Hg', Hkey'.
  split; [done|]. split; [done|]. split; [|split].
  - intros l Hid.
    destruct (settings_linux_inv _ _ _ _ Hid Hset) as (_ & l1 & -> & _ & _ & _ & Hclock & Hscript).
    by exists l1.
  - intros y Hid.
    destruct (settings_windows_frame _ _ _ _ Hid Hset) as (y1 & -> & Hfull & Horg & Hprod & _).
    by exists y1.
  - intros HW HL. by destruct (settings_other_inv _ _ _ HW HL Hset) as (_ & _ & _ & _ & _ & ->).
Qed.

(** X10 at work: the script of a stored Linux template survives [-domain]. *)
Lemma X10_untouched_witness :
  exists spec' l',
    In (CallCustomize spec') (trace (Run sampleWorld domainFlags ["linux"])) /\
    Spec.Identity spec' = LinuxPrepIdentity l' /\
    LinuxPrep.ScriptText l' =
      match Spec.Identity linuxTemplate with
      | LinuxPrepIdentity l => LinuxPrep.ScriptText l
      | _ => ""
      end.
Proof.
  eassert (Hin : In (CallCustomize _) (trace (Run sampleWorld domainFlags ["linux"]))).
  { vm_compute. do 2 right. left. reflexivity. }
  destruct (X10_untouched sampleWorld domainFlags ["linux"] linuxTemplate _ eq_refl Hin)
    as (_ & _ & Hlinux & _).
  destruct (Hlinux _ eq_refl) as (l' & Hid & _ & Hscript).
  eexists. exists l'. split; [exact Hin|]. split; [exact Hid|exact Hscript].
Defined.

(** X11.  A flag left at its default leaves its field: in the specification
    a run submits, without [-auto-login] the sysprep automatic logon and its
    count are those of the resolved specification, and without [-tz] so is
    the time zone, of a Linux prep as of a sysprep. *)
Theorem X11_defaults_keep w cmd args spec0 spec' :
  outcome (resolveSpec w cmd (Arg args 0)) = Ok spec0 ->
  In (CallCustomize spec') (trace (Run w cmd args)) ->
  (customize.alc cmd = 0%Z ->
   forall y, Spec.Identity spec0 = SysprepIdentity y ->
     exists y',
       Spec.Identity spec' = SysprepIdentity y' /\
       GuiUnattended.AutoLogon (Sysprep.GuiUnattended y') =
         GuiUnattended.AutoLogon (Sysprep.GuiUnattended y) /\
       GuiUnattended.AutoLogonCount (Sysprep.GuiUnattended y') =
         GuiUnattended.AutoLogonCount (Sysprep.GuiUnattended y)) /\
  (customize.tz cmd = "" ->
   (forall y, Spec.Identity spec0 = SysprepIdentity y ->
      exists y',
        Spec.Identity spec' = SysprepIdentity y' /\
        GuiUnattended.TimeZone (Sysprep.GuiUnattended y') =
          GuiUnattended.TimeZone (Sysprep.GuiUnattended y)) /\
   (forall l, Spec.Identity spec0 = LinuxPrepIdentity l ->
      exists l',
        Spec.Identity spec' = LinuxPrepIdentity l' /\
        LinuxPrep.TimeZone l' = LinuxPrep.TimeZone l)).
Proof.
  intros Hres Hin.
  destruct (Run_submitted _ _ _ _ _ Hres Hin) as (_ & _ & _ & _ & spec1 & Hset & -> & _).
  split; [intros Halc y Hid|intros Htz; split; [intros y Hid|intros l Hid]].
  - destruct (settings_windows_inv _ _ _ _ Hid Hset) as (y1 & -> & _ & _ & Hon & Hcount & _).
    rewrite Halc in Hon, Hcount. by exists y1.
  - destruct (settings_windows_inv _ _ _ _ Hid Hset) as (y1 & -> & _ & _ & _ & _ & Hzone).
    rewrite Htz in Hzone. by exists y1.
  - destruct (settings_linux_inv _ _ _ _ Hid Hset) as (_ & l1 & -> & _ & _ & Hzone & _).
    rewrite Htz in Hzone. by exists l1.
Qed.

(** X11 at work: the time zone of a stored Windows template survives
    [-domain]. *)
Lemma X11_defaults_keep_witness :
  exists spec' y',
    In (CallCustomize spec') (trace (Run sampleWorld domainFlags ["windows"])) /\
    Spec.Identity spec' = SysprepIdentity y' /\
    GuiUnattended.TimeZone (Sysprep.GuiUnattended y') =
      match Spec.Identity windowsTemplate with
      | SysprepIdentity y => GuiUnattended.TimeZone (Sysprep.GuiUnattended y)
      | _ => 0%Z
      end.
Proof.
  eassert (Hin : In (CallCustomize _) (trace (Run sampleWorld domainFlags ["windows"]))).
  { vm_compute. do 2 right. left. reflexivity. }
  destruct (X11_defaults_keep sampleWorld domainFlags ["windows"] windowsTemplate _ eq_refl Hin)
    as (_ & Htz).
  destruct (Htz eq_refl) as [Hwin _].
  destruct (Hwin _ eq_refl) as (y' & Hid & Hzone).
  eexists. exists y'. split; [exact Hin|]. split; [exact Hid|exact Hzone].
Defined.

(** ** Without a NAME *)

(** X12.  Without a NAME, and with the virtual machine found, a
    specification is submitted exactly when [-type] is ["Linux"] and
    [-auto-login] is not given, or [-type] is ["Windows"] and [-tz], if
    given, is a hexadecimal number of 32 bits: no other flag can stop the
    run, and the number of [-ip] values never does. *)
Theorem X12_fresh_submission w cmd args vm :
  World.VirtualMachine w = Value (Some vm) ->
  Arg args 0 = "" ->
  (exists spec', In (CallCustomize spec') (trace (Run w cmd args))) <->
  (customize.kind cmd = "Linux" /\ customize.alc cmd = 0%Z) \/
  (customize.kind cmd = "Windows" /\
   (customize.tz cmd = "" \/ exists tz, ParseInt (customize.tz cmd) 16 32 = inl tz)).
Proof.
  intros Hvm Hname. split.
  - intros [spec' Hin].
    destruct (Run_submitted_resolved _ _ _ _ Hin) as [spec0 Hres].
    destruct (Run_submitted _ _ _ _ _ Hres Hin) as (_ & _ & _ & _ & spec1 & Hset & _).
    revert Hres Hset. rewrite Hname. unfold resolveSpec, newSpec. simpl String.eqb at 1.
    cbv iota zeta.
    destruct (String.eqb (customize.kind cmd) "Linux") eqn:HL.
    + intros [= <-] Hset. apply String.eqb_eq in HL.
      eapply settings_linux_inv in Hset; [|reflexivity].
      destruct Hset as [Halc _]. by left.
    + destruct (String.eqb (customize.kind cmd) "Windows") eqn:HW; [|discriminate].
      intros [= <-] Hset. apply String.eqb_eq in HW.
      eapply settings_windows_inv in Hset; [|reflexivity].
      destruct Hset as (y1 & _ & _ & _ & _ & _ & Htz).
      right. split; [done|].
      destruct (String.eqb (customize.tz cmd) "") eqn:Ht; simpl in Htz.
      * left. by apply String.eqb_eq.
      * right. destruct Htz as (tz & Hz & _). by exists tz.
  - intros [[HL Halc] | [HW Htz]].
    + set (spec0 := Spec.set_Identity
                      (LinuxPrepIdentity (LinuxPrep.mk VirtualMachineName "" "" None ""))
                      (Spec.mk NilIdentity GlobalIPSettings.zero
                         (replicate (length (customize.ip cmd)) AdapterMapping.zero) [])).
      assert (Hres : outcome (resolveSpec w cmd (Arg args 0)) = Ok spec0).
      { rewrite Hname. unfold resolveSpec, newSpec. simpl String.eqb at 1. cbv iota zeta.
        by rewrite HL. }
      assert (Hset : exists spec1,
                 outcome (applySettings (isSysprep spec0) cmd spec0) = Ok spec1).
      { unfold spec0, Spec.set_Identity, isSysprep. simpl.
        rewrite applySettings_linux, Halc. simpl. eauto. }
      destruct Hset as [spec1 Hset].
      apply (Run_submits w cmd args vm spec0 spec1 Hvm Hres); [|done].
      unfold spec0. simpl. by rewrite length_replicate.
    + set (spec0 := Spec.set_Identity
                      (SysprepIdentity
                         (Sysprep.mk GuiUnattended.zero
                            (UserData.mk "" "" VirtualMachineName "") Identification.zero))
                      (Spec.mk NilIdentity GlobalIPSettings.zero
                         (replicate (length (customize.ip cmd)) AdapterMapping.zero) [])).
      assert (Hres : outcome (resolveSpec w cmd (Arg args 0)) = Ok spec0).
      { rewrite Hname. unfold resolveSpec, newSpec. simpl String.eqb at 1. cbv iota zeta.
        by rewrite HW. }
      destruct (applySettings_windows_Ok cmd spec0 _ eq_refl Htz) as [spec1 Hset].
      apply (Run_submits w cmd args vm spec0 spec1 Hvm Hres); [|done].
      unfold spec0. simpl. by rewrite length_replicate.
Qed.

(** X12 at work: a fresh Linux specification with two [-ip] values. *)
Lemma X12_fresh_submission_witness :
  exists spec', In (CallCustomize spec') (trace (Run sampleWorld twoIPs [])).
Proof.
  apply (X12_fresh_submission sampleWorld twoIPs [] "vm-42" eq_refl eq_refl).
  left. split; reflexivity.
Defined.

(** ** Comma-separated values *)

Lemma Split_nonempty s sep : Split s sep <> [].
Proof.
  destruct s as [|c rest]; simpl; [done|].
  destruct (Ascii.eqb c sep); [done|]. by destruct (Split rest sep).
Qed.

Lemma concat_cons sep x y ys :
  String.concat sep (x :: y :: ys) =
  String.append x (String.append sep (String.concat sep (y :: ys))).
Proof. reflexivity. Qed.

(** Joining the pieces with the separator gives the string back. *)
Lemma Split_concat s sep : String.concat (String sep "") (Split s sep) = s.
Proof.
  induction s as [|c rest IH]; [reflexivity|]. simpl Split.
  destruct (Ascii.eqb c sep) eqn:Hc.
  - apply Ascii.eqb_eq in Hc. subst c.
    destruct (Split rest sep) as [|y ys] eqn:Hs; [by destruct (Split_nonempty rest sep)|].
    rewrite concat_cons, IH. reflexivity.
  - destruct (Split rest sep) as [|y ys] eqn:Hs; [by destruct (Split_nonempty rest sep)|].
    rewrite <- IH. by destruct ys.
Qed.

(** No piece holds the separator. *)
Lemma Split_no_sep s sep : forall piece,
  In piece (Split s sep) -> ~ In sep (list_ascii_of_string piece).
Proof.
  induction s as [|c rest IH]; simpl; intros piece.
  - intros [<-|[]]. simpl. tauto.
  - destruct (Ascii.eqb c sep) eqn:Hc.
    + intros [<-|Hin]; [simpl; tauto|by apply IH].
    + apply Ascii.eqb_neq in Hc.
      destruct (Split rest sep) as [|y ys] eqn:Hs; [by destruct (Split_nonempty rest sep)|].
      intros [<-|Hin].
      * simpl. intros [Heq|Hy]; [done|]. by apply (IH y); [left|].
      * apply IH. by right.
Qed.

(** One piece more than there are separators. *)
Lemma Split_length s sep :
  length (Split s sep) = S (count_occ ascii_dec (list_ascii_of_string s) sep).
Proof.
  induction s as [|c rest IH]; [reflexivity|]. simpl.
  destruct (Ascii.eqb c sep) eqn:Hc.
  - apply Ascii.eqb_eq in Hc. subst c.
    destruct (ascii_dec sep sep); [|done]. simpl. by rewrite IH.
  - apply Ascii.eqb_neq in Hc. destruct (ascii_dec c sep); [done|].
    rewrite <- IH. by destruct (Split rest sep).
Qed.

(** A string without separator is its own single piece. *)
Lemma Split_single p sep :
  ~ In sep (list_ascii_of_string p) -> Split p sep = [p].
Proof.
  induction p as [|c rest IH]; [reflexivity|]. simpl. intros Hno.
  destruct (Ascii.eqb c sep) eqn:Hc; [apply Ascii.eqb_eq in Hc; tauto|].
  rewrite IH; [reflexivity|tauto].
Qed.

Lemma Split_append p sep rest :
  ~ In sep (list_ascii_of_string p) ->
  Split (String.append p (String sep rest)) sep = p :: Split rest sep.
Proof.
  induction p as [|c p' IH]; simpl; intros Hno.
  - by rewrite Ascii.eqb_refl.
  - destruct (Ascii.eqb c sep) eqn:Hc; [apply Ascii.eqb_eq in Hc; tauto|].
    rewrite IH; [reflexivity|tauto].
Qed.

(** Splitting what was joined gives the pieces back. *)
Lemma Split_join sep pieces :
  pieces <> [] ->
  (forall piece, In piece pieces -> ~ In sep (list_ascii_of_string piece)) ->
  Split (String.concat (String sep "") pieces) sep = pieces.
Proof.
  induction pieces as [|p ps IH]; [done|]. intros _ Hno.
  destruct ps as [|q qs].
  - simpl. apply Split_single. apply Hno. by left.
  - rewrite concat_cons.
    change (Split (String.append p (String sep (String.concat (String sep "") (q :: qs)))) sep =
            p :: q :: qs).
    rewrite Split_append by (apply Hno; by left).
    rewrite IH; [done|done|]. intros piece Hin. apply Hno. by right.
Qed.

(** X13.  A [-gateway] value and the gateway list it is stored as determine
    each other: the list is never empty, has one entry more than the value
    has commas, no entry holds a comma, and the entries joined with commas
    are the value; and a value written by joining comma-free entries with
    commas is stored as exactly those entries. *)
Theorem X13_gateway_round_trip isWindows cmd i ip nic g :
  customize.gateway cmd !! i = Some g ->
  let gw := IPSettings.Gateway (AdapterMapping.Adapter (setNic isWindows cmd i ip nic)) in
  gw <> [] /\
  length gw = S (count_occ ascii_dec (list_ascii_of_string g) comma) /\
  (forall piece, In piece gw -> ~ In comma (list_ascii_of_string piece)) /\
  String.concat "," gw = g /\
  (forall pieces,
     pieces <> [] ->
     (forall piece, In piece pieces -> ~ In comma (list_ascii_of_string piece)) ->
     g = String.concat "," pieces -> gw = pieces).
Proof.
  intros Hg gw.
  assert (Hgw : gw = Split g comma).
  { unfold gw. by rewrite setNic_Gateway, Hg. }
  rewrite Hgw. split; [apply Split_nonempty|]. split; [apply Split_length|].
  split; [apply Split_no_sep|]. split; [apply Split_concat|].
  intros pieces Hne Hno ->. by apply Split_join.
Qed.

(** X13 at work: two gateways on the first adapter. *)
Lemma X13_gateway_round_trip_witness :
  IPSettings.Gateway
    (AdapterMapping.Adapter (setNic false surplusFlags 0 "10.0.0.5" AdapterMapping.zero)) =
  ["10.0.0.1"; "10.0.0.2"].
Proof.
  destruct (X13_gateway_round_trip false surplusFlags 0 "10.0.0.5" AdapterMapping.zero
              "10.0.0.1,10.0.0.2" eq_refl) as (_ & _ & _ & _ & Hjoin).
  apply Hjoin; [discriminate| |reflexivity].
  intros piece [<-|[<-|[]]]; vm_compute; intros H;
    repeat (destruct H as [H|H]; [discriminate H|]); exact H.
Defined.

(** ** The errors of [Run] *)

Lemma resolveSpec_failed w cmd name e :
  outcome (resolveSpec w cmd name) = Failed e ->
  (name = "" /\ customize.kind cmd <> "Linux" /\ customize.kind cmd <> "Windows" /\
   e = ErrHelp) \/
  (name <> "" /\
   (World.DoesCustomizationSpecExist w name = Error e \/
    (World.DoesCustomizationSpecExist w name = Value false /\
     e = Errorf "specification %q does not exist" [ArgString name]) \/
    (World.DoesCustomizationSpecExist w name = Value true /\
     World.GetCustomizationSpec w name = Error e))).
Proof.
  unfold resolveSpec. destruct (String.eqb name "") eqn:Hn.
  - apply String.eqb_eq in Hn. unfold newSpec.
    destruct (String.eqb _ "Linux") eqn:HL; [discriminate|].
    destruct (String.eqb _ "Windows") eqn:HW; [discriminate|].
    intros [= <-]. left. by rewrite <- !String.eqb_neq.
  - apply String.eqb_neq in Hn. right. split; [done|]. revert H.
    unfold fetchSpec, call.
    destruct (World.DoesCustomizationSpecExist w name) as [[|]|e1]; simpl.
    + destruct (World.GetCustomizationSpec w name) as [item|e2]; simpl;
        [discriminate|]. intros [= <-]. right. by right.
    + intros [= <-]. right. by left.
    + intros [= <-]. by left.
Qed.

Lemma applySettings_failed cmd spec e :
  outcome (applySettings (isSysprep spec) cmd spec) = Failed e ->
  (isSysprep spec = false /\ customize.alc cmd <> 0%Z /\
   e = Errorf "option '-auto-login' is Windows only" []) \/
  (isSysprep spec = true /\
   exists err,
     ParseInt (customize.tz cmd) 16 32 = inr err /\
     e = Errorf "converting -tz=%q: %s" [ArgString (customize.tz cmd); ArgError err]).
Proof.
  destruct (identity_cases spec) as [(l & Hid & HW) | [(y & Hid & HW) | [HW HL]]];
    rewrite HW.
  - destruct spec as [id g nics key]; simpl in Hid; subst id.
    rewrite applySettings_linux.
    destruct (negb (customize.alc cmd =? 0)%Z) eqn:Halc; [|discriminate].
    intros [= <-]. left. split; [done|]. split; [|done].
    intros Hz. by rewrite Hz in Halc.
  - destruct spec as [id g nics key]; simpl in Hid; subst id.
    rewrite applySettings_windows. cbv zeta.
    destruct (negb (String.eqb _ _)); [|discriminate].
    destruct (ParseInt _ _ _) as [tz|err] eqn:Hp; [discriminate|].
    intros [= <-]. right. split; [done|]. by exists err.
  - rewrite (applySettings_other _ _ HW HL).
    destruct (_ || _); [discriminate|].
    destruct (negb (customize.alc cmd =? 0)%Z) eqn:Halc.
    + intros [= <-]. left. split; [done|]. split; [|done].
      intros Hz. by rewrite Hz in Halc.
    + destruct (negb (String.eqb _ _)); discriminate.
Qed.

Lemma applyFlags_failed cmd spec e :
  length (customize.ip cmd) <= length (Spec.NicSettingMap spec) ->
  outcome (applyFlags cmd spec) = Failed e ->
  outcome (applySettings (isSysprep spec) cmd spec) = Failed e.
Proof.
  intros Hlen H.
  destruct (outcome (applySettings (isSysprep spec) cmd spec)) as [spec1|e1|p] eqn:Hs.
  - destruct (applyFlags_Ok _ _ _ Hlen Hs) as (nics' & Hf & _).
    rewrite Hf in H. discriminate.
  - unfold applyFlags in H. cbv zeta in H. by rewrite outcome_bind, Hs in H.
  - unfold applyFlags in H. cbv zeta in H. by rewrite outcome_bind, Hs in H.
Qed.

(** X14.  Every error [Run] returns has one of these causes: the virtual
    machine lookup failed or found nothing ([flag.ErrHelp]); without a NAME
    the [-type] is unknown ([flag.ErrHelp]); the manager failed to answer
    or has no specification of that NAME; there are more [-ip] values than
    adapters; [-auto-login] is given for an identity that is not sysprep;
    [-tz] does not parse for a sysprep identity; or the specification was
    submitted and the customization call or its task failed. *)
Theorem X14_failures w cmd args e :
  outcome (Run w cmd args) = Failed e ->
  World.VirtualMachine w = Error e \/
  (World.VirtualMachine w = Value None /\ e = ErrHelp) \/
  (Arg args 0 = "" /\ customize.kind cmd <> "Linux" /\ customize.kind cmd <> "Windows" /\
   e = ErrHelp) \/
  (Arg args 0 <> "" /\
   (World.DoesCustomizationSpecExist w (Arg args 0) = Error e \/
    (World.DoesCustomizationSpecExist w (Arg args 0) = Value false /\
     e = Errorf "specification %q does not exist" [ArgString (Arg args 0)]) \/
    (World.DoesCustomizationSpecExist w (Arg args 0) = Value true /\
     World.GetCustomizationSpec w (Arg args 0) = Error e))) \/
  (exists spec0,
     outcome (resolveSpec w cmd (Arg args 0)) = Ok spec0 /\
     ((length (Spec.NicSettingMap spec0) < length (customize.ip cmd) /\
       e = Errorf "%d -ip specified, spec %q has %d"
             [ArgInt (length (customize.ip cmd)); ArgString (Arg args 0);
              ArgInt (length (Spec.NicSettingMap spec0))]) \/
      (isSysprep spec0 = false /\ customize.alc cmd <> 0%Z /\
       e = Errorf "option '-auto-login' is Windows only" []) \/
      (isSysprep spec0 = true /\
       exists err,
         ParseInt (customize.tz cmd) 16 32 = inr err /\
         e = Errorf "converting -tz=%q: %s"
               [ArgString (customize.tz cmd); ArgError err]))) \/
  (exists spec',
     In (CallCustomize spec') (trace (Run w cmd args)) /\
     (World.Customize w spec' = Error e \/
      exists task, World.Customize w spec' = Value task /\ World.Wait w task = Some e)).
Proof.
  intros H.
  destruct (World.VirtualMachine w) as [[vm|]|e1] eqn:Hvm.
  - rewrite (Run_with_vm _ _ _ _ Hvm), outcome_bind in H.
    destruct (outcome (prepare w cmd (Arg args 0))) as [spec'|e1|p] eqn:Hp;
      [| |discriminate].
    + do 5 right. exists spec'. split.
      { apply Run_submission_iff. split; [by exists vm|done]. }
      revert H. unfold submit, call.
      destruct (World.Customize w spec') as [task|e2]; simpl.
      * destruct (World.Wait w task) as [e3|] eqn:Hw; simpl; [|discriminate].
        intros [= <-]. right. by exists task.
      * intros [= <-]. by left.
    + injection H as ->. unfold prepare in Hp. rewrite outcome_bind in Hp.
      destruct (outcome (resolveSpec w cmd (Arg args 0))) as [spec0|e1|p] eqn:Hr;
        [| |discriminate].
      * do 4 right. left. exists spec0. split; [done|].
        rewrite outcome_bind in Hp. unfold checkIPs in Hp.
        destruct (length (Spec.NicSettingMap spec0) <? length (customize.ip cmd))%nat
          eqn:Hlt; simpl in Hp.
        -- apply Nat.ltb_lt in Hlt. injection Hp as <-. by left.
        -- apply Nat.ltb_ge in Hlt. right.
           apply applySettings_failed. by apply applyFlags_failed.
      * injection Hp as ->.
        destruct (resolveSpec_failed _ _ _ _ Hr) as [Hnew|Hfetch].
        -- do 2 right. by left.
        -- do 3 right. by left.
  - unfold Run in H. rewrite Hvm in H. injection H as <-. right. by left.
  - unfold Run in H. rewrite Hvm in H. injection H as <-. by left.
Qed.

(** X14 at work: [-auto-login 3] for a fresh Linux specification. *)
Lemma X14_failures_witness :
  exists spec0,
    outcome (resolveSpec sampleWorld (sampleFlags "Linux" 3) (Arg [] 0)) = Ok spec0 /\
    isSysprep spec0 = false.
Proof.
  destruct (X14_failures sampleWorld (sampleFlags "Linux" 3) []
              (Errorf "option '-auto-login' is Windows only" []) eq_refl)
    as [H|[[H _]|[(_ & H & _)|[[H _]|[(spec0 & Hres & H)|(spec' & H & _)]]]]].
  - discriminate H.
  - discriminate H.
  - by destruct H.
  - by destruct H.
  - exists spec0. split; [exact Hres|].
    destruct H as [[_ H]|[[H _]|[_ (err & _ & H)]]];
      [discriminate H|exact H|discriminate H].
  - vm_compute in H. destruct H.
Defined.

(** ** The registered defaults *)

(** X15.  With every option at the value [Register] gives it, [Run] changes
    nothing: the specification it submits is the one it resolved, whatever
    its identity, with no adapter written; without a NAME that is a Linux
    prep named after the virtual machine, with no adapter mapping. *)
Theorem X15_registered_defaults w args vm :
  World.VirtualMachine w = Value (Some vm) ->
  (forall spec0,
     outcome (resolveSpec w registered (Arg args 0)) = Ok spec0 ->
     submissions (trace (Run w registered args)) = [CallCustomize spec0] /\
     mutations (trace (Run w registered args)) = 0) /\
  (Arg args 0 = "" ->
   submissions (trace (Run w registered args)) =
     [CallCustomize
        (Spec.mk (LinuxPrepIdentity (LinuxPrep.mk VirtualMachineName "" "" None ""))
           GlobalIPSettings.zero [] [])]).
Proof.
  intros Hvm.
  assert (Hgen : forall spec0,
            outcome (resolveSpec w registered (Arg args 0)) = Ok spec0 ->
            submissions (trace (Run w registered args)) = [CallCustomize spec0] /\
            mutations (trace (Run w registered args)) = 0).
  { intros spec0 Hres.
    assert (Hres' : resolveSpec w registered (Arg args 0) =
                    (Ok spec0, trace (resolveSpec w registered (Arg args 0)))).
    { by rewrite <- Hres, <- M_eta. }
    destruct (resolveSpec_quiet w registered (Arg args 0)) as [Hmut Hsub].
    assert (Hprep : prepare w registered (Arg args 0) =
                    (Ok spec0, trace (resolveSpec w registered (Arg args 0)))).
    { rewrite (prepare_resolved _ _ _ _ _ Hres').
      rewrite (applyFlags_nothing registered spec0 eq_refl eq_refl eq_refl eq_refl
                 eq_refl eq_refl (or_introl eq_refl)).
      simpl. by rewrite app_nil_r. }
    rewrite (Run_with_vm _ _ _ _ Hvm), Hprep, bind_Ok, submit_trace.
    unfold trace at 1 3. simpl snd.
    rewrite submissions_app, mutations_app, Hsub, Hmut.
    unfold submissions, mutations. simpl.
    by destruct (World.Customize w spec0). }
  split; [exact Hgen|].
  intros Hname. apply Hgen. by rewrite Hname.
Qed.

(** X15 at work: no option, no NAME. *)
Lemma X15_registered_defaults_witness :
  submissions (trace (Run sampleWorld registered [])) =
    [CallCustomize
       (Spec.mk (LinuxPrepIdentity (LinuxPrep.mk VirtualMachineName "" "" None ""))
          GlobalIPSettings.zero [] [])].
Proof.
  apply (X15_registered_defaults sampleWorld [] "vm-42" eq_refl). reflexivity.
Defined.
